(** * WhatsApp Cloud API bulk sender: a model of [app.py]

    The two API functions ([get_message_templates], [send_template_message])
    and the two button handlers (fetch, send) of the Streamlit script are
    embedded as functions in a small state-and-exception monad.  The state is
    the log of HTTP requests issued and of Streamlit calls made; the network is
    an oracle answering each request. *)

From Stdlib Require Import List String Ascii ZArith Bool Lia Arith.
From Stdlib Require Import DecimalString.
Import ListNotations.
Open Scope string_scope.
Open Scope list_scope.

Set Implicit Arguments.
Set Warnings "-register-all".

(** ** Python values *)

(** A decoded JSON document, as [json.loads] / [response.json()] returns it.
    A dict keeps its keys in insertion order: an association list, read
    through [dict_get] (first binding). *)
Inductive json : Type :=
| JNull
| JBool (b : bool)
| JNum (n : Z)
| JStr (s : string)
| JArr (items : list json)
| JObj (fields : list (string * json)).

Fixpoint dict_get (k : string) (d : list (string * json)) : option json :=
  match d with
  | [] => None
  | (k', v) :: d' => if String.eqb k k' then Some v else dict_get k d'
  end.

(** The exceptions that occur.  [RequestException] stands for the whole
    hierarchy of [requests.exceptions] (ConnectionError, Timeout, HTTPError,
    JSONDecodeError ...); the handlers of the script never tell them apart. *)
Inductive exn : Type :=
| RequestException (msg : string)
| UnboundLocalError (var : string)
| NameError (var : string)
| AttributeError (attr : string)
| KeyError (key : string)
| TypeError (msg : string).

Definition is_RequestException (e : exn) : bool :=
  match e with RequestException _ => true | _ => false end.

(** [str(e)] *)
Definition str_exn (e : exn) : string :=
  match e with
  | RequestException m => m
  | UnboundLocalError v =>
      "cannot access local variable '" ++ v ++ "' where it is not associated with a value"
  | NameError v => "name '" ++ v ++ "' is not defined"
  | AttributeError a => "object has no attribute '" ++ a ++ "'"
  | KeyError k => "'" ++ k ++ "'"
  | TypeError m => m
  end.

(** [str(n)] for an [int]. *)
Definition str_int (n : Z) : string := NilZero.string_of_int (Z.to_int n).

(** ** Strings: [str.split('\n')], [str.strip()] *)

(** [c.isspace()] for a character below U+0100. *)
Definition isspace (c : ascii) : bool :=
  let n := nat_of_ascii c in
  (((9 <=? n) && (n <=? 13)) || ((28 <=? n) && (n <=? 32))
   || (n =? 133) || (n =? 160))%nat.

Definition newline : ascii := "010"%char.

(** [s.split('\n')]: never empty, one more piece than there are newlines. *)
Fixpoint split_lines (s : string) : list string :=
  match s with
  | EmptyString => [EmptyString]
  | String c s' =>
      if Ascii.eqb c newline then EmptyString :: split_lines s'
      else match split_lines s' with
           | [] => [String c EmptyString]
           | l :: ls => String c l :: ls
           end
  end.

Fixpoint lstrip (s : string) : string :=
  match s with
  | EmptyString => EmptyString
  | String c s' => if isspace c then lstrip s' else s
  end.

Definition is_empty (s : string) : bool :=
  match s with EmptyString => true | _ => false end.

Fixpoint rstrip (s : string) : string :=
  match s with
  | EmptyString => EmptyString
  | String c s' =>
      let r := rstrip s' in
      if isspace c && is_empty r then EmptyString else String c r
  end.

(** [s.strip()] *)
Definition strip (s : string) : string := rstrip (lstrip s).

(** Truth value of a [str]. *)
Definition truthy (s : string) : bool := negb (is_empty s).

(** Line 204:
    [[var.strip() for var in template_variables_input.split('\n') if var.strip()]] *)
Definition parse_variables (template_variables_input : string) : list string :=
  map strip (filter (fun var => truthy (strip var))
                    (split_lines template_variables_input)).

(** The specification's words for the same parsing: a line is blank when it
    holds nothing but whitespace. *)
Fixpoint all_space (s : string) : bool :=
  match s with
  | EmptyString => true
  | String c s' => isspace c && all_space s'
  end.

Definition non_blank (line : string) : bool := negb (all_space line).

(** ** The message payload (lines 59-73) *)

Definition text_parameter (var : string) : json :=
  JObj [("type", JStr "text"); ("text", JStr var)].

Definition build_components (variables : list string) : list json :=
  let components := [] in
  match variables with
  | [] => components
  | _ :: _ =>
      let parameters := map text_parameter variables in
      components ++ [JObj [("type", JStr "body"); ("parameters", JArr parameters)]]
  end.

Definition build_data (to_phone_number : string) (template_name : json)
           (variables : list string) : json :=
  JObj [("messaging_product", JStr "whatsapp");
        ("to", JStr to_phone_number);
        ("type", JStr "template");
        ("template",
          JObj [("name", template_name);
                ("language", JObj [("code", JStr "en_US")]);
                ("components", JArr (build_components variables))])].

(** [j[k]] on a decoded document, [None] when [j] is no dict or lacks [k]. *)
Definition field (k : string) (j : json) : option json :=
  match j with
  | JObj d => dict_get k d
  | _ => None
  end.

Definition template_field (k : string) (data : json) : option json :=
  match field "template" data with
  | Some t => field k t
  | None => None
  end.

(** ** The outside world: HTTP and Streamlit *)

Inductive http_method : Type := GET | POST.

(** One call of [requests.get] / [requests.post]. *)
Record http_request : Type := {
  method : http_method;
  url : string;
  headers : list (string * string);
  params : list (string * string);
  data : option json            (* the dict given to [json.dumps] *)
}.

(** A [requests.Response]: [json_result] is what [response.json()] gives,
    the decoded body or the message of the decoding error. *)
Record response : Type := {
  status_code : Z;
  reason : string;
  response_url : string;
  json_result : string + json
}.

Inductive http_result : Type :=
| Transport_failure (msg : string)   (* [requests] raises: DNS, connection, timeout *)
| Responds (r : response).

(** The network answers the [n]-th request of a run. *)
Definition network : Type := nat -> http_request -> http_result.

(** Texts shown to the user, with the values their f-strings interpolate. *)
Inductive message : Type :=
| Msg_error_fetching (e : exn)          (* "Error fetching templates: {e}" *)
| Msg_unexpected (e : exn)              (* "An unexpected error occurred: {e}" *)
| Msg_fetching                          (* "Fetching templates..." *)
| Msg_no_templates                      (* "No approved templates found or there was an error." *)
| Msg_provide_credentials               (* "Please provide API Token and WABA ID ..." *)
| Msg_select_template                   (* "Please select a template first." *)
| Msg_upload_csv                        (* "Please upload a CSV and select recipients." *)
| Msg_select_phone_column               (* "Please select the column containing phone numbers." *)
| Msg_cap_exceeded (selected : nat)     (* "Message not sent. You have selected {n} recipients, ..." *)
| Msg_no_recipients                     (* "No recipients selected. ..." *)
| Msg_preparing (template : json) (total : nat)
| Msg_sending (number : string) (i total : nat)
| Msg_sending_complete                  (* "Sending Complete: Results" *)
| Msg_sent (success_count total : nat)  (* "Successfully sent messages: {}/{}" *)
| Msg_failed (failed total : nat)       (* "Failed to send messages: {}/{}" *)
| Msg_view_failed                       (* "View Failed Message Details" *)
| Msg_phone (number : string).          (* "**Phone:** {}" *)

Inductive st_call : Type :=
| St_error (m : message)
| St_warning (m : message)
| St_info (m : message)
| St_success (m : message)
| St_spinner (m : message)
| St_header (m : message)
| St_expander (m : message)
| St_write (m : message)
| St_json (j : json)
| St_progress (num den : nat).

Record world : Type := {
  http_log : list http_request;   (* requests issued so far, oldest first *)
  st_log : list st_call           (* Streamlit calls so far, oldest first *)
}.

Definition fresh : world := {| http_log := []; st_log := [] |}.

(** ** The monad of the script: state and exceptions *)

Inductive result (A : Type) : Type :=
| Ok (a : A)
| Raise (e : exn).
Arguments Raise {A} e.

Definition M (A : Type) : Type := world -> result A * world.

Definition ret {A} (a : A) : M A := fun w => (Ok a, w).

Definition raise {A} (e : exn) : M A := fun w => (Raise e, w).

Definition bind {A B} (m : M A) (k : A -> M B) : M B :=
  fun w => match m w with
           | (Ok a, w') => k a w'
           | (Raise e, w') => (Raise e, w')
           end.

Declare Scope py_scope.
Delimit Scope py_scope with py.
Notation "x <- m ;; k" := (bind m (fun x => k))
  (at level 61, m at next level, right associativity) : py_scope.
Notation "m ;; k" := (bind m (fun _ => k))
  (at level 61, right associativity) : py_scope.
Open Scope py_scope.

(** [try: x = m; k x] with [except Exception as e: h x e], where the handler
    reads the local [x]: unbound ([None]) when [m] itself raised. *)
Definition try_with {A B} (m : M A) (k : A -> M B)
           (h : option A -> exn -> M B) : M B :=
  fun w => match m w with
           | (Raise e, w1) => h None e w1
           | (Ok a, w1) =>
               match k a w1 with
               | (Raise e, w2) => h (Some a) e w2
               | (Ok b, w2) => (Ok b, w2)
               end
           end.

(** Reading a local that the handler may find unbound. *)
Definition local {A} (name : string) (v : option A) : M A :=
  match v with
  | Some a => ret a
  | None => raise (UnboundLocalError name)
  end.

Definition st (c : st_call) : M unit :=
  fun w => (Ok tt, {| http_log := http_log w; st_log := st_log w ++ [c] |}).

(** [response.raise_for_status()], as the [requests] library has it. *)
Definition http_error_msg (kind : string) (r : response) : string :=
  str_int (status_code r) ++ " " ++ kind ++ " Error: " ++ reason r
  ++ " for url: " ++ response_url r.

Definition raise_for_status (r : response) : M unit :=
  if ((400 <=? status_code r) && (status_code r <? 500))%Z
  then raise (RequestException (http_error_msg "Client" r))
  else if ((500 <=? status_code r) && (status_code r <? 600))%Z
  then raise (RequestException (http_error_msg "Server" r))
  else ret tt.

(** [response.json()]: [requests.exceptions.JSONDecodeError] is a
    [RequestException]. *)
Definition response_json (r : response) : M json :=
  match json_result r with
  | inl msg => raise (RequestException msg)
  | inr j => ret j
  end.

(** [d.get(k, default)] *)
Definition py_get (d : json) (k : string) (default : json) : M json :=
  match d with
  | JObj fields =>
      ret (match dict_get k fields with Some v => v | None => default end)
  | _ => raise (AttributeError "get")
  end.

(** [d[k]] *)
Definition py_subscript (d : json) (k : string) : M json :=
  match d with
  | JObj fields =>
      match dict_get k fields with
      | Some v => ret v
      | None => raise (KeyError k)
      end
  | JArr _ => raise (TypeError "list indices must be integers or slices, not str")
  | JStr _ => raise (TypeError "string indices must be integers, not 'str'")
  | _ => raise (TypeError "object is not subscriptable")
  end.

Fixpoint characters (s : string) : list json :=
  match s with
  | EmptyString => []
  | String c s' => JStr (String c EmptyString) :: characters s'
  end.

(** What [for t in x] runs over. *)
Definition py_iter (x : json) : M (list json) :=
  match x with
  | JArr items => ret items
  | JObj fields => ret (map (fun kv => JStr (fst kv)) fields)
  | JStr s => ret (characters s)
  | _ => raise (TypeError "object is not iterable")
  end.

(** [v == 'APPROVED'] *)
Definition is_APPROVED (v : json) : bool :=
  match v with
  | JStr s => String.eqb s "APPROVED"
  | _ => false
  end.

(** Line 28: [[t['name'] for t in templates if t.get('status') == 'APPROVED']] *)
Fixpoint approved_names (templates : list json) : M (list json) :=
  match templates with
  | [] => ret []
  | t :: rest =>
      status <- py_get t "status" JNull ;;
      if is_APPROVED status
      then name <- py_subscript t "name" ;;
           names <- approved_names rest ;;
           ret (name :: names)
      else approved_names rest
  end.

(** Length and truth value of a list. *)
Definition nonempty {A} (l : list A) : bool :=
  match l with [] => false | _ :: _ => true end.

(** ** The API functions *)

Section Api.

Variable net : network.

(** [requests.get(...)] / [requests.post(...)]: the request is issued (and
    logged), then the network answers or the transport fails. *)
Definition requests (req : http_request) : M response :=
  fun w =>
    let w' := {| http_log := http_log w ++ [req]; st_log := st_log w |} in
    match net (List.length (http_log w)) req with
    | Transport_failure msg => (Raise (RequestException msg), w')
    | Responds r => (Ok r, w')
    end.

Definition templates_request (token waba_id : string) : http_request :=
  {| method := GET;
     url := "https://graph.facebook.com/v23.0/" ++ waba_id ++ "/message_templates";
     headers := [("Authorization", ("Bearer " ++ token)%string)];
     params := [("fields", "name,status")];
     data := None |}.

(** Lines 9-36. *)
Definition get_message_templates (token waba_id : string) : M (list json) :=
  try_with
    (requests (templates_request token waba_id))
    (fun response =>
       raise_for_status response ;;
       body <- response_json response ;;
       templates <- py_get body "data" (JArr []) ;;
       ts <- py_iter templates ;;
       approved_templates <- approved_names ts ;;
       ret approved_templates)
    (fun response e =>
       if is_RequestException e
       then st (St_error (Msg_error_fetching e)) ;;
            ret []
       else st (St_error (Msg_unexpected e)) ;;
            r <- local "response" response ;;
            raw <- response_json r ;;
            st (St_json raw) ;;
            ret []).

Definition message_request (token phone_id to_phone_number : string)
           (template_name : json) (variables : list string) : http_request :=
  {| method := POST;
     url := "https://graph.facebook.com/v19.0/" ++ phone_id ++ "/messages";
     headers := [("Authorization", ("Bearer " ++ token)%string);
                 ("Content-Type", "application/json")];
     params := [];
     data := Some (build_data to_phone_number template_name variables) |}.

(** Lines 39-79.  The only handler is [except RequestException]; anything
    else propagates, and so does what the handler itself raises. *)
Definition send_template_message (token phone_id to_phone_number : string)
           (template_name : json) (variables : list string) : M json :=
  try_with
    (requests (message_request token phone_id to_phone_number
                               template_name variables))
    (fun response =>
       raise_for_status response ;;
       body <- response_json response ;;
       ret (JObj [("success", JBool true); ("data", body)]))
    (fun response e =>
       if is_RequestException e
       then r <- local "response" response ;;
            details <- response_json r ;;
            ret (JObj [("success", JBool false);
                       ("error", JStr (str_exn e));
                       ("details", details)])
       else raise e).

(** ** The fetch button (lines 118-125) *)

(** The new value of [st.session_state.templates]. *)
Definition fetch_button (api_token waba_id : string)
           (session_templates : list json) : M (list json) :=
  if truthy api_token && truthy waba_id
  then st (St_spinner Msg_fetching) ;;
       templates <- get_message_templates api_token waba_id ;;
       (if nonempty templates then ret tt
        else st (St_warning Msg_no_templates)) ;;
       ret templates
  else st (St_error Msg_provide_credentials) ;;
       ret session_templates.

(** ** The send button (lines 186-234) *)

Section Send.

(** A cell of the uploaded table is whatever pandas read ([int], [float],
    [str]); the script only ever takes its [str()]. *)
Variable cell : Type.
Variable py_str : cell -> string.

(** The edited table: the inserted flag and the CSV's own columns. *)
Record row : Type := {
  Send : bool;
  cell_at : string -> cell
}.

Record dataframe : Type := {
  columns : list string;          (* the labels other than 'Send' *)
  rows : list row
}.

(** [df.empty]: the 'Send' column is always there, so no rows. *)
Definition df_empty (df : dataframe) : bool := negb (nonempty (rows df)).

(** [df[df['Send'] == True]] *)
Definition df_selected (df : dataframe) : dataframe :=
  {| columns := columns df;
     rows := filter (fun r => Bool.eqb (Send r) true) (rows df) |}.

(** [len(df)] *)
Definition df_len (df : dataframe) : nat := List.length (rows df).

(** [df[col].tolist()] *)
Definition df_column (col : string) (df : dataframe) : M (list cell) :=
  if existsb (String.eqb col) (columns df)
  then ret (map (fun r => cell_at r col) (rows df))
  else raise (KeyError col).

(** [{"phone_number": number, "response": response}] *)
Record entry : Type := {
  phone_number : cell;
  response_of : json
}.

(** [r['response']['success']] as a condition. *)
Definition success (r : entry) : bool :=
  match field "success" (response_of r) with
  | Some (JBool true) => true
  | _ => false
  end.

(** The names the script may or may not have bound when the button is
    pressed ([... in locals()]). *)
Record locals : Type := {
  selected_template : option json;
  template_variables_input : option string;
  edited_df : option dataframe;
  phone_col : option string
}.

Definition name_of {A} (name : string) (v : option A) : M A :=
  match v with
  | Some a => ret a
  | None => raise (NameError name)
  end.

Variable api_token phone_number_id : string.

(** Lines 215-221: [for i, number in enumerate(phone_numbers)], from index
    [i] on, with [results] as accumulated so far. *)
Fixpoint send_loop (selected : json) (variables : list string)
         (total_recipients i : nat) (phone_numbers : list cell)
         (results : list entry) : M (list entry) :=
  match phone_numbers with
  | [] => ret results
  | number :: rest =>
      st (St_spinner (Msg_sending (py_str number) (i + 1) total_recipients)) ;;
      response <- send_template_message api_token phone_number_id
                    (py_str number) selected variables ;;
      let results := results ++ [{| phone_number := number;
                                    response_of := response |}] in
      st (St_progress (i + 1) total_recipients) ;;
      send_loop selected variables total_recipients (S i) rest results
  end.

Fixpoint show_failed (failed_messages : list entry) : M unit :=
  match failed_messages with
  | [] => ret tt
  | failed :: rest =>
      st (St_write (Msg_phone (py_str (phone_number failed)))) ;;
      st (St_json (response_of failed)) ;;
      show_failed rest
  end.

(** Lines 223-234. *)
Definition show_results (total_recipients : nat) (results : list entry) : M unit :=
  st (St_header Msg_sending_complete) ;;
  let success_count := List.length (filter success results) in
  st (St_success (Msg_sent success_count total_recipients)) ;;
  let failed_messages := filter (fun r => negb (success r)) results in
  if nonempty failed_messages
  then st (St_error (Msg_failed (List.length failed_messages) total_recipients)) ;;
       st (St_expander Msg_view_failed) ;;
       show_failed failed_messages
  else ret tt.

(** The body of [if st.button("Send to Selected Recipients")].  The value is
    the list [results] when the loop ran to its end, [None] when the run was
    turned down before it. *)
Definition send_button (l : locals) : M (option (list entry)) :=
  match selected_template l with
  | None => st (St_warning Msg_select_template) ;; ret None
  | Some selected =>
      match edited_df l with
      | None => st (St_warning Msg_upload_csv) ;; ret None
      | Some df =>
          if df_empty df
          then st (St_warning Msg_upload_csv) ;; ret None
          else
            match phone_col l with
            | None => st (St_warning Msg_select_phone_column) ;; ret None
            | Some col =>
                if negb (truthy col)
                then st (St_warning Msg_select_phone_column) ;; ret None
                else
                  let recipients_to_send := df_selected df in
                  if (250 <? df_len recipients_to_send)%nat
                  then st (St_error (Msg_cap_exceeded (df_len recipients_to_send))) ;;
                       ret None
                  else
                    phone_numbers <- df_column col recipients_to_send ;;
                    input <- name_of "template_variables_input"
                                     (template_variables_input l) ;;
                    let variables := parse_variables input in
                    if negb (nonempty phone_numbers)
                    then st (St_warning Msg_no_recipients) ;; ret None
                    else
                      let total_recipients := List.length phone_numbers in
                      st (St_info (Msg_preparing selected total_recipients)) ;;
                      st (St_progress 0 total_recipients) ;;
                      results <- send_loop selected variables
                                           total_recipients 0 phone_numbers [] ;;
                      show_results total_recipients results ;;
                      ret (Some results)
            end
      end
  end.

End Send.

End Api.

Arguments Send {cell} r.
Arguments cell_at {cell} r col.
Arguments columns {cell} d.
Arguments rows {cell} d.
Arguments phone_number {cell} e.
Arguments response_of {cell} e.
Arguments selected_template {cell} l.
Arguments template_variables_input {cell} l.
Arguments edited_df {cell} l.
Arguments phone_col {cell} l.

(** ** Words of the specification *)

(** The statuses on which [raise_for_status] raises. *)
Definition http_error (r : response) : bool :=
  ((400 <=? status_code r) && (status_code r <? 600))%Z.

(** An entry of the listing "with status exactly APPROVED". *)
Definition approved (entry : list (string * json)) : bool :=
  match dict_get "status" entry with
  | Some (JStr s) => String.eqb s "APPROVED"
  | _ => false
  end.

Definition name_field (entry : list (string * json)) : json :=
  match dict_get "name" entry with
  | Some n => n
  | None => JNull
  end.

(** [t] is [line] without its surrounding whitespace. *)
Definition starts_with_space (s : string) : bool :=
  match s with
  | EmptyString => false
  | String c _ => isspace c
  end.

Fixpoint ends_with_space (s : string) : bool :=
  match s with
  | EmptyString => false
  | String c EmptyString => isspace c
  | String _ s' => ends_with_space s'
  end.

Definition trimmed_of (line t : string) : Prop :=
  exists pre post,
    line = (pre ++ t ++ post)%string
    /\ all_space pre = true /\ all_space post = true
    /\ starts_with_space t = false /\ ends_with_space t = false.

(** A Streamlit call that turns the operation down. *)
Definition rejection (c : st_call) : bool :=
  match c with
  | St_error _ | St_warning _ => true
  | _ => false
  end.

(** The numbers the send button is about to write to: the chosen column of
    the rows whose flag is set. *)
Definition recipients {cell} (l : locals cell) : list cell :=
  match edited_df l, phone_col l with
  | Some df, Some col => map (fun r => cell_at r col) (rows (df_selected df))
  | _, _ => []
  end.

(** The "to" field of the payload a request carries. *)
Definition to_field (req : http_request) : option json :=
  match data req with
  | Some d => field "to" d
  | None => None
  end.

(** The world after one more request and some Streamlit calls. *)
Definition after_request (req : http_request) (calls : list st_call)
           (w : world) : world :=
  {| http_log := http_log w ++ [req]; st_log := st_log w ++ calls |}.

(** The world after one more Streamlit call. *)
Definition show (c : st_call) (w : world) : world :=
  {| http_log := http_log w; st_log := st_log w ++ [c] |}.

(** The request the loop issues for one number (lines 217-219). *)
Definition request_for {cell} (py_str : cell -> string)
           (api_token phone_number_id : string) (selected : json)
           (variables : list string) (number : cell) : http_request :=
  message_request api_token phone_number_id (py_str number) selected variables.

(** ** Concrete tables and networks, for running the model *)

(** A text area with two variables and a blank line between them. *)
Definition two_variables : string :=
  "  Asha " ++ String newline (String newline " 42").

(** Cells as pandas reads them from a column of digits or of text. *)
Inductive scalar : Type :=
| Int (n : Z)
| Str (s : string).

Definition str_scalar (v : scalar) : string :=
  match v with
  | Int n => str_int n
  | Str s => s
  end.

(** A one-column table, every row with its flag set, as after an upload. *)
Definition contacts (numbers : list scalar) : dataframe scalar :=
  {| columns := ["phone"];
     rows := map (fun n => {| Send := true; cell_at := fun _ => n |}) numbers |}.

Definition ready (template : string) (input : string) (numbers : list scalar)
  : locals scalar :=
  {| selected_template := Some (JStr template);
     template_variables_input := Some input;
     edited_df := Some (contacts numbers);
     phone_col := Some "phone" |}.

Definition accepted : response :=
  {| status_code := 200; reason := "OK"; response_url := "";
     json_result := inr (JObj [("messages", JArr [JObj [("id", JStr "wamid.1")]])]) |}.

Definition listing (status : Z) (entries : list json) : response :=
  {| status_code := status; reason := ""; response_url := "";
     json_result := inr (JObj [("data", JArr entries)]) |}.

Definition template (name status : string) : json :=
  JObj [("name", JStr name); ("status", JStr status)].

(** Every request is accepted. *)
Definition net_ok : network := fun _ _ => Responds accepted.

(** The connection drops on the [k]-th request (counted from 0). *)
Definition net_drop (k : nat) : network :=
  fun n _ => if Nat.eqb n k then Transport_failure "Connection aborted."
             else Responds accepted.

(** Every request gets the same answer. *)
Definition net_const (r : response) : network := fun _ _ => Responds r.

(** ** The upload, the table editor and the page (lines 106-181) *)

Section Page.

Variable cell : Type.

(** What [pd.read_csv] returns: the labels of the header and the data rows,
    each row giving a cell for every label. *)
Record csv : Type := {
  labels : list string;
  lines : list (string -> cell)
}.

(** The uploaded file: its name, and what [pd.read_csv] makes of it, a
    table or the text of the exception it raises. *)
Record uploaded : Type := {
  file_name : string;
  read_csv : string + csv
}.

(** [pd.DataFrame()] *)
Definition empty_frame : dataframe cell := {| columns := []; rows := [] |}.

(** [df.insert(0, 'Send', True)]: pandas refuses a label the frame has
    already ([ValueError]). *)
Definition insert_send (t : csv) : string + dataframe cell :=
  if existsb (String.eqb "Send") (labels t)
  then inl "cannot insert Send, already exists"%string
  else inr {| columns := labels t;
              rows := map (fun line => {| Send := true; cell_at := line |})
                          (lines t) |}.

(** [st.session_state] *)
Record session : Type := {
  templates : list json;
  df_for_editing : dataframe cell;
  uploaded_filename : option string
}.

(** Lines 107-110. *)
Definition initial_session : session :=
  {| templates := []; df_for_editing := empty_frame; uploaded_filename := None |}.

(** [st.session_state.get('uploaded_filename') != uploaded_file.name] *)
Definition is_new_file (s : session) (f : uploaded) : bool :=
  match uploaded_filename s with
  | Some known => negb (String.eqb known (file_name f))
  | None => true
  end.

(** Lines 146-157, with a file in the uploader: the session afterwards and
    the text [st.error] shows, if any.  The name is stored before the column
    is inserted. *)
Definition upload (s : session) (f : uploaded) : session * option string :=
  if is_new_file s f
  then match read_csv f with
       | inl e =>
           ({| templates := templates s;
               df_for_editing := empty_frame;
               uploaded_filename := uploaded_filename s |},
            Some ("Error reading CSV file: " ++ e)%string)
       | inr t =>
           match insert_send t with
           | inl e =>
               ({| templates := templates s;
                   df_for_editing := empty_frame;
                   uploaded_filename := Some (file_name f) |},
                Some ("Error reading CSV file: " ++ e)%string)
           | inr df =>
               ({| templates := templates s;
                   df_for_editing := df;
                   uploaded_filename := Some (file_name f) |},
                None)
           end
       end
  else (s, None).

(** [df.columns] of a frame that went through [insert_send]. *)
Definition df_columns (df : dataframe cell) : list string :=
  "Send"%string :: columns df.

(** Line 166: [[col for col in df_to_edit.columns if col != 'Send']] *)
Definition phone_col_options (df : dataframe cell) : list string :=
  filter (fun col => negb (String.eqb col "Send")) (df_columns df).

(** Line 179: [edited_df['Send'].sum()] *)
Definition num_selected (df : dataframe cell) : nat :=
  list_sum (map (fun r => if Send r then 1 else 0) (rows df)).

(** Lines 180-181: the count the warning under the table shows, if it is
    shown. *)
Definition selection_warning (df : dataframe cell) : option nat :=
  if (250 <? num_selected df)%nat then Some (num_selected df) else None.

(** What the user does with the widgets of one run.  A select box returns
    the option at the chosen index, which the widget keeps within the
    options; the data editor returns the table as edited. *)
Record widgets : Type := {
  template_index : nat;
  variables_text : string;
  column_index : nat;
  data_editor : dataframe cell -> dataframe cell
}.

Definition selectbox {A} (options : list A) (index : nat) : option A :=
  nth_error options (Nat.min index (List.length options - 1)).

(** The names bound when the script reaches the send button: those of the
    branch of line 127 when templates are in the session, those of the
    branch of line 159 when the table is not empty. *)
Definition script_locals (s : session) (ui : widgets) : locals cell :=
  {| selected_template :=
       if nonempty (templates s)
       then selectbox (templates s) (template_index ui)
       else None;
     template_variables_input :=
       if nonempty (templates s) then Some (variables_text ui) else None;
     edited_df :=
       if negb (df_empty (df_for_editing s))
       then Some (data_editor ui (df_for_editing s))
       else None;
     phone_col :=
       if negb (df_empty (df_for_editing s))
       then selectbox (phone_col_options (df_for_editing s)) (column_index ui)
       else None |}.

End Page.

Arguments empty_frame {cell}.
Arguments initial_session {cell}.

(** A piece of text without a line break. *)
Fixpoint has_newline (s : string) : bool :=
  match s with
  | EmptyString => false
  | String c s' => Ascii.eqb c newline || has_newline s'
  end.

(** The Streamlit calls of the loop for the recipients from index [i] on
    (lines 216 and 221). *)
Fixpoint loop_calls {cell} (py_str : cell -> string) (total i : nat)
         (numbers : list cell) : list st_call :=
  match numbers with
  | [] => []
  | number :: rest =>
      St_spinner (Msg_sending (py_str number) (i + 1) total)
      :: St_progress (i + 1) total
      :: loop_calls py_str total (S i) rest
  end.

(** A contact file of two lines, a session that has fetched one template,
    and a user who touches nothing. *)
Definition two_contacts : csv scalar :=
  {| labels := ["name"; "phone"];
     lines := [fun col => if String.eqb col "phone"
                          then Int 15550000001 else Str "Asha";
               fun col => if String.eqb col "phone"
                          then Str "+15550000002" else Str "Ravi"] |}.

Definition contacts_file : uploaded scalar :=
  {| file_name := "contacts.csv"; read_csv := inr two_contacts |}.

Definition fetched : session scalar :=
  {| templates := [JStr "hello_world"];
     df_for_editing := empty_frame;
     uploaded_filename := None |}.

Definition untouched (column : nat) : widgets scalar :=
  {| template_index := 0;
     variables_text := "";
     column_index := column;
     data_editor := fun df => df |}.

(** * Properties *)

(** ** Trimming and splitting *)

Lemma lstrip_spec (s : string) :
  exists pre, s = (pre ++ lstrip s)%string
              /\ all_space pre = true
              /\ starts_with_space (lstrip s) = false.
Proof.
  induction s as [|c s IH]; simpl.
  - exists EmptyString. auto.
  - destruct (isspace c) eqn:Hc.
    + destruct IH as (pre & Heq & Hpre & Hhd).
      exists (String c pre). simpl. rewrite Hc, Hpre, <- Heq. auto.
    + exists EmptyString. simpl. auto.
Qed.

Lemma rstrip_spec (s : string) :
  exists post, s = (rstrip s ++ post)%string
               /\ all_space post = true
               /\ ends_with_space (rstrip s) = false.
Proof.
  induction s as [|c s IH]; simpl.
  - exists EmptyString. auto.
  - destruct IH as (post & Heq & Hpost & Hlast).
    destruct (isspace c) eqn:Hc; simpl.
    + destruct (rstrip s) eqn:Hr; simpl in *.
      * exists (String c post). simpl. rewrite Hc, Hpost, <- Heq. auto.
      * exists post. rewrite <- Heq. auto.
    + exists post. rewrite <- Heq. repeat split; auto.
      destruct (rstrip s); auto.
Qed.

Lemma rstrip_head (s : string) :
  starts_with_space s = false -> starts_with_space (rstrip s) = false.
Proof.
  destruct s as [|c s]; simpl; auto.
  intros Hc. rewrite Hc. simpl. exact Hc.
Qed.

Lemma all_space_app (s t : string) :
  all_space (s ++ t) = all_space s && all_space t.
Proof.
  induction s as [|c s IH]; simpl; auto.
  rewrite IH. now rewrite andb_assoc.
Qed.

Lemma is_empty_rstrip (s : string) : is_empty (rstrip s) = all_space s.
Proof.
  induction s as [|c s IH]; simpl; auto.
  rewrite <- IH.
  destruct (isspace c), (is_empty (rstrip s)); reflexivity.
Qed.

Lemma all_space_lstrip (s : string) : all_space (lstrip s) = all_space s.
Proof.
  induction s as [|c s IH]; simpl; auto.
  destruct (isspace c) eqn:Hc; simpl; auto.
  now rewrite Hc.
Qed.

(** The script's test [if var.strip()] is the specification's "non-blank". *)
Lemma truthy_strip (line : string) : truthy (strip line) = non_blank line.
Proof.
  unfold truthy, non_blank, strip.
  now rewrite is_empty_rstrip, all_space_lstrip.
Qed.

Lemma strip_trimmed (line : string) : trimmed_of line (strip line).
Proof.
  unfold trimmed_of, strip.
  destruct (lstrip_spec line) as (pre & Hl & Hpre & Hhd).
  destruct (rstrip_spec (lstrip line)) as (post & Hr & Hpost & Hlast).
  exists pre, post. repeat split; auto.
  - now rewrite <- Hr.
  - now apply rstrip_head.
Qed.

Lemma parse_variables_lines (raw : string) :
  parse_variables raw = map strip (filter non_blank (split_lines raw)).
Proof.
  unfold parse_variables. f_equal.
  apply filter_ext. intros line. apply truthy_strip.
Qed.

Lemma parse_variables_nil (raw : string) :
  parse_variables raw = [] <-> existsb non_blank (split_lines raw) = false.
Proof.
  rewrite parse_variables_lines.
  induction (split_lines raw) as [|line ls IH]; simpl.
  - tauto.
  - destruct (non_blank line); simpl.
    + split; discriminate.
    + exact IH.
Qed.


(** ** The payload *)

(** C3, as the script has it: with no variable the template object still
    carries a "components" field, and its value is the empty list. *)
Theorem components_empty_when_no_variables
        (token phone_id to_phone_number : string) (template_name : json)
        (raw : string) :
  existsb non_blank (split_lines raw) = false ->
  exists d,
    data (message_request token phone_id to_phone_number template_name
                          (parse_variables raw)) = Some d
    /\ template_field "components" d = Some (JArr []).
Proof.
  intros Hblank. apply parse_variables_nil in Hblank.
  rewrite Hblank. simpl. eexists. split; reflexivity.
Qed.

Lemma components_empty_when_no_variables_run :
  existsb non_blank (split_lines "") = false
  /\ exists d,
      data (message_request "EAAG" "1055" "15550001111" (JStr "hello_world")
                            (parse_variables "")) = Some d
      /\ template_field "components" d = Some (JArr []).
Proof.
  split; [reflexivity|].
  apply (components_empty_when_no_variables "EAAG" "1055" "15550001111"
                                            (JStr "hello_world") "").
  reflexivity.
Defined.

(** C3 as stated fails: for the empty text area the field is present. *)
Lemma components_field_not_absent :
  parse_variables "" = []
  /\ exists d,
      data (message_request "EAAG" "1055" "15550001111" (JStr "hello_world")
                            (parse_variables "")) = Some d
      /\ template_field "components" d <> None.
Proof.
  split; [reflexivity|].
  eexists. split; [reflexivity|]. simpl. discriminate.
Qed.



(** ** The template lister *)

Lemma is_APPROVED_status (entry : list (string * json)) :
  is_APPROVED (match dict_get "status" entry with
               | Some v => v
               | None => JNull
               end) = approved entry.
Proof.
  unfold approved. destruct (dict_get "status" entry) as [[]|]; reflexivity.
Qed.

Lemma approved_names_object (fields : list (string * json)) (ts : list json)
      (w : world) :
  approved_names (JObj fields :: ts) w
  = if approved fields
    then match dict_get "name" fields with
         | Some n =>
             match approved_names ts w with
             | (Ok names, w') => (Ok (n :: names), w')
             | (Raise e, w') => (Raise e, w')
             end
         | None => (Raise (KeyError "name"), w)
         end
    else approved_names ts w.
Proof.
  simpl. unfold bind at 1. simpl. rewrite is_APPROVED_status.
  destruct (approved fields); [|reflexivity].
  unfold bind. destruct (dict_get "name" fields); simpl; [|reflexivity].
  destruct (approved_names ts w) as [[names|e] w']; reflexivity.
Qed.

Lemma approved_names_objects (entries : list (list (string * json))) (w : world) :
  (forall e, In e entries -> approved e = true -> dict_get "name" e <> None) ->
  approved_names (map JObj entries) w
  = (Ok (map name_field (filter approved entries)), w).
Proof.
  induction entries as [|e entries IH]; intros Hnames.
  - reflexivity.
  - cbn [map filter]. rewrite approved_names_object.
    assert (Hrest : forall e', In e' entries -> approved e' = true ->
                               dict_get "name" e' <> None)
      by (intros; apply Hnames; simpl; auto).
    destruct (approved e) eqn:He.
    + destruct (dict_get "name" e) as [n|] eqn:Hn.
      * rewrite (IH Hrest). cbn [map].
        replace (name_field e) with n by (unfold name_field; now rewrite Hn).
        reflexivity.
      * exfalso. apply (Hnames e); simpl; auto.
    + apply IH, Hrest.
Qed.

(** The comprehension touches neither the network nor the page, and what it
    raises is never a [RequestException]. *)
Lemma approved_names_cases (ts : list json) (w : world) :
  (exists names, approved_names ts w = (Ok names, w))
  \/ (exists e, is_RequestException e = false
                /\ approved_names ts w = (Raise e, w)).
Proof.
  induction ts as [|t ts IH].
  - left. eexists. reflexivity.
  - destruct t as [| | | |items|fields];
      try (right; eexists; split; [|reflexivity]; reflexivity).
    rewrite approved_names_object.
    destruct (approved fields); [|exact IH].
    destruct (dict_get "name" fields) as [n|].
    + destruct IH as [(names & ->) | (e & He & ->)].
      * left. eexists. reflexivity.
      * right. exists e. auto.
    + right. eexists. split; [|reflexivity]. reflexivity.
Qed.

Lemma st_log_app_nil (w : world) (req : http_request) :
  {| http_log := http_log w ++ [req]; st_log := st_log w |}
  = after_request req [] w.
Proof.
  unfold after_request. now rewrite app_nil_r.
Qed.

Lemma raise_for_status_passes (r : response) (w : world) :
  http_error r = false -> raise_for_status r w = (Ok tt, w).
Proof.
  unfold http_error, raise_for_status. intros H.
  destruct ((400 <=? status_code r) && (status_code r <? 500))%Z eqn:H4.
  - exfalso. apply andb_true_iff in H4 as [Ha Hb].
    rewrite Ha in H. simpl in H. apply Z.ltb_lt in Hb. apply Z.ltb_ge in H. lia.
  - destruct ((500 <=? status_code r) && (status_code r <? 600))%Z eqn:H5.
    + exfalso. apply andb_true_iff in H5 as [Ha Hb].
      rewrite Hb, andb_true_r in H. apply Z.leb_le in Ha. apply Z.leb_gt in H. lia.
    + reflexivity.
Qed.

Lemma raise_for_status_raises (r : response) (w : world) :
  http_error r = true ->
  exists msg, raise_for_status r w = (Raise (RequestException msg), w).
Proof.
  unfold http_error, raise_for_status. intros H.
  apply andb_true_iff in H as [Ha Hb].
  destruct ((400 <=? status_code r) && (status_code r <? 500))%Z eqn:H4.
  - eexists. reflexivity.
  - destruct ((500 <=? status_code r) && (status_code r <? 600))%Z eqn:H5.
    + eexists. reflexivity.
    + exfalso. rewrite Ha in H4. rewrite Hb in H5. simpl in *.
      rewrite andb_true_r in H5.
      apply Z.ltb_ge in H4. apply Z.leb_gt in H5. lia.
Qed.

Lemma ok_status_no_error (r : response) :
  (200 <= status_code r < 300)%Z -> http_error r = false.
Proof.
  intros H. unfold http_error.
  destruct (400 <=? status_code r)%Z eqn:Ha; auto.
  apply Z.leb_le in Ha. lia.
Qed.

Section Lister.

Variable net : network.
Variables token waba_id : string.

(** What the lister does once the response is in and its status passed. *)
Lemma lister_on_body (w : world) (r : response) (body : json) :
  net (List.length (http_log w)) (templates_request token waba_id) = Responds r ->
  http_error r = false ->
  json_result r = inr body ->
  get_message_templates net token waba_id w
  = match (templates <- py_get body "data" (JArr []) ;;
           ts <- py_iter templates ;;
           approved_names ts) (after_request (templates_request token waba_id) [] w) with
    | (Ok names, w') => (Ok names, w')
    | (Raise e, w') =>
        if is_RequestException e
        then (Ok [], after_request (templates_request token waba_id)
                       [St_error (Msg_error_fetching e)] w)
        else (Ok [], after_request (templates_request token waba_id)
                       [St_error (Msg_unexpected e); St_json body] w)
    end.
Proof.
  intros Hnet Hstatus Hbody.
  unfold get_message_templates, try_with, requests. rewrite Hnet.
  rewrite st_log_app_nil.
  unfold bind at 1. rewrite (raise_for_status_passes r _ Hstatus).
  cbv [bind ret raise local st py_get py_iter response_json].
  rewrite !Hbody.
  destruct body as [| | | |items|fields];
    try (cbn; rewrite ?app_nil_r, <- ?app_assoc; reflexivity).
  destruct (match dict_get "data" fields with
            | Some v => v
            | None => JArr []
            end) as [| | |s|items|fields'];
    try (cbn; rewrite ?app_nil_r, <- ?app_assoc; reflexivity).
  all: match goal with
       | |- context [approved_names ?ts ?w0] =>
           destruct (approved_names_cases ts w0) as [(names & ->) | (e & He & ->)]
       end;
    [ reflexivity
    | rewrite He; cbn; rewrite ?app_nil_r, <- ?app_assoc; reflexivity ].
Qed.

Lemma lister_on_transport_failure (w : world) (msg : string) :
  net (List.length (http_log w)) (templates_request token waba_id)
  = Transport_failure msg ->
  get_message_templates net token waba_id w
  = (Ok [], after_request (templates_request token waba_id)
              [St_error (Msg_error_fetching (RequestException msg))] w).
Proof.
  intros Hnet.
  unfold get_message_templates, try_with, requests. rewrite Hnet.
  reflexivity.
Qed.

Lemma lister_on_http_error (w : world) (r : response) :
  net (List.length (http_log w)) (templates_request token waba_id) = Responds r ->
  http_error r = true ->
  exists msg,
    get_message_templates net token waba_id w
    = (Ok [], after_request (templates_request token waba_id)
                [St_error (Msg_error_fetching (RequestException msg))] w).
Proof.
  intros Hnet Hstatus.
  unfold get_message_templates, try_with, requests. rewrite Hnet.
  destruct (raise_for_status_raises r
              {| http_log := http_log w ++ [templates_request token waba_id];
                 st_log := st_log w |} Hstatus)
    as (msg & Hraise).
  exists msg. unfold bind at 1. rewrite Hraise. reflexivity.
Qed.

Lemma lister_on_undecodable (w : world) (r : response) (msg : string) :
  net (List.length (http_log w)) (templates_request token waba_id) = Responds r ->
  http_error r = false ->
  json_result r = inl msg ->
  get_message_templates net token waba_id w
  = (Ok [], after_request (templates_request token waba_id)
              [St_error (Msg_error_fetching (RequestException msg))] w).
Proof.
  intros Hnet Hstatus Hbody.
  unfold get_message_templates, try_with, requests. rewrite Hnet.
  unfold bind at 1. rewrite (raise_for_status_passes r _ Hstatus).
  unfold bind at 1. unfold response_json at 1. rewrite Hbody.
  reflexivity.
Qed.

(** The lister always returns a list: no exception leaves it. *)
Lemma get_message_templates_never_raises (w : world) :
  exists names w', get_message_templates net token waba_id w = (Ok names, w').
Proof.
  destruct (net (List.length (http_log w)) (templates_request token waba_id))
    as [msg|r] eqn:Hnet.
  - rewrite (lister_on_transport_failure w Hnet). eauto.
  - destruct (http_error r) eqn:Hstatus.
    + destruct (lister_on_http_error w Hnet Hstatus) as (msg & ->). eauto.
    + destruct (json_result r) as [msg|body] eqn:Hbody.
      * rewrite (lister_on_undecodable w Hnet Hstatus Hbody). eauto.
      * rewrite (lister_on_body w Hnet Hstatus Hbody).
        destruct ((templates <- py_get body "data" (JArr []) ;;
                   ts <- py_iter templates ;;
                   approved_names ts)
                    (after_request (templates_request token waba_id) [] w))
          as [[names|e] w'].
        -- eauto.
        -- destruct (is_RequestException e); eauto.
Qed.

(** C4: on a listing whose "data" is an array of objects (each approved one
    named), the lister returns the names of the entries whose status is the
    string "APPROVED", compared exactly, in the order of the response. *)
Theorem approved_names_in_server_order
        (w : world) (r : response) (fields : list (string * json))
        (entries : list (list (string * json))) :
  net (List.length (http_log w)) (templates_request token waba_id) = Responds r ->
  http_error r = false ->
  json_result r = inr (JObj fields) ->
  dict_get "data" fields = Some (JArr (map JObj entries)) ->
  (forall e, In e entries -> approved e = true -> dict_get "name" e <> None) ->
  get_message_templates net token waba_id w
  = (Ok (map name_field (filter approved entries)),
     after_request (templates_request token waba_id) [] w).
Proof.
  intros Hnet Hstatus Hbody Hdata Hnames.
  rewrite (lister_on_body w Hnet Hstatus Hbody).
  unfold bind at 1. cbn [py_get]. rewrite Hdata. unfold ret at 1.
  unfold bind at 1. cbn [py_iter]. unfold ret at 1.
  now rewrite (approved_names_objects _ _ Hnames).
Qed.

(** C7, as the script has it: when the transport fails or the status is one
    on which [raise_for_status] raises (400 to 599), the lister returns the
    empty list and reports the error, and the value is the one a successful
    call without approved templates returns. *)
Theorem failed_listing_is_empty (w : world) :
  (exists msg, net (List.length (http_log w)) (templates_request token waba_id)
               = Transport_failure msg)
  \/ (exists r, net (List.length (http_log w)) (templates_request token waba_id)
                = Responds r
                /\ http_error r = true) ->
  (exists e,
      get_message_templates net token waba_id w
      = (Ok [], after_request (templates_request token waba_id)
                              [St_error (Msg_error_fetching e)] w))
  /\ fst (get_message_templates net token waba_id w)
     = fst (get_message_templates (net_const (listing 200 [])) token waba_id w).
Proof.
  intros [(msg & Hnet) | (r & Hnet & Hstatus)].
  - rewrite (lister_on_transport_failure w Hnet). split; [eauto | reflexivity].
  - destruct (lister_on_http_error w Hnet Hstatus) as (msg & ->).
    split; [eauto | reflexivity].
Qed.

(** C9: a response with a 2xx status whose decoded body has no "data" key
    gives the empty list and no exception; when the body is a dict nothing is
    reported either, the key being defaulted to the empty list. *)
Theorem missing_data_defaults_to_empty
        (w : world) (r : response) (body : json) :
  net (List.length (http_log w)) (templates_request token waba_id) = Responds r ->
  (200 <= status_code r < 300)%Z ->
  json_result r = inr body ->
  field "data" body = None ->
  exists calls,
    get_message_templates net token waba_id w
    = (Ok [], after_request (templates_request token waba_id) calls w)
    /\ (forall fields, body = JObj fields -> calls = []).
Proof.
  intros Hnet Hstatus Hbody Hdata.
  rewrite (lister_on_body w Hnet (ok_status_no_error r Hstatus) Hbody).
  destruct body as [| | | |items|fields];
    try (eexists; split; [reflexivity | discriminate]).
  simpl in Hdata.
  exists []. split; [|reflexivity].
  unfold bind at 1. cbn [py_get]. rewrite Hdata. reflexivity.
Qed.

End Lister.

Lemma approved_names_in_server_order_run :
  get_message_templates
    (net_const (listing 200 [template "welcome" "APPROVED";
                             template "draft" "PENDING";
                             template "shout" "approved";
                             template "promo" "APPROVED"]))
    "EAAG" "1020" fresh
  = (Ok [JStr "welcome"; JStr "promo"],
     after_request (templates_request "EAAG" "1020") [] fresh).
Proof.
  apply (@approved_names_in_server_order
           (net_const (listing 200 [template "welcome" "APPROVED";
                                    template "draft" "PENDING";
                                    template "shout" "approved";
                                    template "promo" "APPROVED"]))
           "EAAG" "1020" fresh
           (listing 200 [template "welcome" "APPROVED";
                         template "draft" "PENDING";
                         template "shout" "approved";
                         template "promo" "APPROVED"])
           [("data", JArr [template "welcome" "APPROVED";
                           template "draft" "PENDING";
                           template "shout" "approved";
                           template "promo" "APPROVED"])]
           [[("name", JStr "welcome"); ("status", JStr "APPROVED")];
            [("name", JStr "draft"); ("status", JStr "PENDING")];
            [("name", JStr "shout"); ("status", JStr "approved")];
            [("name", JStr "promo"); ("status", JStr "APPROVED")]]).
  - reflexivity.
  - reflexivity.
  - reflexivity.
  - reflexivity.
  - intros e [<-|[<-|[<-|[<-|[]]]]] _; simpl; discriminate.
Defined.

Lemma failed_listing_is_empty_run :
  (exists e,
      get_message_templates
        (net_const (listing 401 [template "welcome" "APPROVED"]))
        "EAAG" "1020" fresh
      = (Ok [], after_request (templates_request "EAAG" "1020")
                              [St_error (Msg_error_fetching e)] fresh))
  /\ fst (get_message_templates
            (net_const (listing 401 [template "welcome" "APPROVED"]))
            "EAAG" "1020" fresh)
     = fst (get_message_templates (net_const (listing 200 []))
                                  "EAAG" "1020" fresh).
Proof.
  apply (@failed_listing_is_empty
           (net_const (listing 401 [template "welcome" "APPROVED"]))
           "EAAG" "1020" fresh).
  right. exists (listing 401 [template "welcome" "APPROVED"]).
  split; reflexivity.
Defined.

(** C7 as stated fails: a status outside 2xx on which [raise_for_status]
    does not raise is read like a success. *)
Lemma non_2xx_listing_not_empty :
  ~ (200 <= status_code (listing 300 [template "promo" "APPROVED"]) < 300)%Z
  /\ get_message_templates
       (net_const (listing 300 [template "promo" "APPROVED"]))
       "EAAG" "1020" fresh
     = (Ok [JStr "promo"],
        {| http_log := [templates_request "EAAG" "1020"]; st_log := [] |}).
Proof.
  split; [simpl; lia | reflexivity].
Qed.

Lemma missing_data_defaults_to_empty_run :
  exists calls,
    get_message_templates
      (net_const {| status_code := 200; reason := "OK"; response_url := "";
                    json_result := inr (JObj [("paging", JObj [])]) |})
      "EAAG" "1020" fresh
    = (Ok [], after_request (templates_request "EAAG" "1020") calls fresh)
    /\ (forall fields, JObj [("paging", JObj [])] = JObj fields -> calls = []).
Proof.
  apply (@missing_data_defaults_to_empty
           (net_const {| status_code := 200; reason := "OK"; response_url := "";
                         json_result := inr (JObj [("paging", JObj [])]) |})
           "EAAG" "1020" fresh
           {| status_code := 200; reason := "OK"; response_url := "";
              json_result := inr (JObj [("paging", JObj [])]) |}
           (JObj [("paging", JObj [])])).
  - reflexivity.
  - simpl. lia.
  - reflexivity.
  - reflexivity.
Defined.

(** ** One message *)

Section Message.

Variable net : network.
Variables token phone_id to_phone_number : string.
Variable template_name : json.
Variable variables : list string.

(** Whatever happens, the call issues its one request and shows nothing. *)
Lemma send_template_message_world (w : world) :
  snd (send_template_message net token phone_id to_phone_number
                             template_name variables w)
  = after_request (message_request token phone_id to_phone_number
                                   template_name variables) [] w.
Proof.
  unfold send_template_message, try_with, requests.
  destruct (net _ _) as [msg|r]; [now rewrite <- st_log_app_nil|].
  cbv [bind ret raise local response_json raise_for_status].
  rewrite <- st_log_app_nil.
  destruct ((400 <=? status_code r) && (status_code r <? 500))%Z;
    [|destruct ((500 <=? status_code r) && (status_code r <? 600))%Z];
    destruct (json_result r); reflexivity.
Qed.

(** The transport fails: the handler reads [response], which was never
    bound. *)
Lemma send_template_message_transport_failure (w : world) (msg : string) :
  net (List.length (http_log w))
      (message_request token phone_id to_phone_number template_name variables)
  = Transport_failure msg ->
  fst (send_template_message net token phone_id to_phone_number
                             template_name variables w)
  = Raise (UnboundLocalError "response").
Proof.
  intros Hnet. unfold send_template_message, try_with, requests.
  rewrite Hnet. reflexivity.
Qed.

(** The provider answers with a decodable body: the call returns a dict,
    marked by the status. *)
Lemma send_template_message_answered (w : world) (r : response) (body : json) :
  net (List.length (http_log w))
      (message_request token phone_id to_phone_number template_name variables)
  = Responds r ->
  json_result r = inr body ->
  exists answer,
    fst (send_template_message net token phone_id to_phone_number
                               template_name variables w) = Ok answer
    /\ field "success" answer = Some (JBool (negb (http_error r))).
Proof.
  intros Hnet Hbody. unfold send_template_message, try_with, requests.
  rewrite Hnet.
  destruct (http_error r) eqn:Hstatus.
  - destruct (raise_for_status_raises r
                {| http_log := http_log w ++
                     [message_request token phone_id to_phone_number
                                      template_name variables];
                   st_log := st_log w |} Hstatus) as (msg & Hraise).
    unfold bind at 1. rewrite Hraise.
    cbv [is_RequestException bind local ret response_json]. rewrite Hbody.
    eexists. split; reflexivity.
  - unfold bind at 1. rewrite (raise_for_status_passes r _ Hstatus).
    cbv [bind ret response_json]. rewrite Hbody.
    eexists. split; reflexivity.
Qed.

End Message.

(** ** The send loop and the send button *)

Section Button.

Variable net : network.
Variable cell : Type.
Variable py_str : cell -> string.
Variables api_token phone_number_id : string.

Lemma show_failed_world (failed : list (entry cell)) (w : world) :
  fst (show_failed py_str failed w) = Ok tt
  /\ http_log (snd (show_failed py_str failed w)) = http_log w.
Proof.
  revert w. induction failed as [|f failed IH]; intros w; simpl.
  - auto.
  - cbv [bind st].
    match goal with
    | |- context [show_failed py_str failed ?w'] =>
        destruct (IH w') as [Hok Hlog]
    end.
    split; [exact Hok | rewrite Hlog; reflexivity].
Qed.

Lemma show_results_world (total : nat) (results : list (entry cell)) (w : world) :
  fst (show_results py_str total results w) = Ok tt
  /\ http_log (snd (show_results py_str total results w)) = http_log w.
Proof.
  unfold show_results. cbv [bind st].
  destruct (nonempty _).
  - match goal with
    | |- context [show_failed py_str ?failed ?w'] =>
        destruct (show_failed_world failed w') as [Hok Hlog]
    end.
    split; [exact Hok | rewrite Hlog; reflexivity].
  - auto.
Qed.

Section Loop.

Variable selected : json.
Variable variables : list string.
Variable total : nat.

(** One turn of the loop. *)
Lemma send_loop_step (number : cell) (rest : list cell) (i : nat)
      (results : list (entry cell)) (w : world) :
  send_loop net py_str api_token phone_number_id selected variables total i
            (number :: rest) results w
  = match send_template_message net api_token phone_number_id (py_str number)
            selected variables
            (show (St_spinner (Msg_sending (py_str number) (i + 1) total)) w)
    with
    | (Ok answer, w') =>
        send_loop net py_str api_token phone_number_id selected variables total
                  (S i) rest
                  (results ++ [{| phone_number := number;
                                  response_of := answer |}])
                  (show (St_progress (i + 1) total) w')
    | (Raise e, w') => (Raise e, w')
    end.
Proof.
  cbn [send_loop]. unfold bind at 1. cbn [st].
  fold (show (St_spinner (Msg_sending (py_str number) (i + 1) total)) w).
  unfold bind at 1.
  destruct (send_template_message _ _ _ _ _ _ _) as [[answer|e] w']; reflexivity.
Qed.

(** The requests of the loop are those of a prefix of the numbers, in
    order; when the loop ends normally the prefix is the whole list and the
    results are one more entry per number, in order. *)
Lemma send_loop_log (numbers : list cell) :
  forall (i : nat) (results : list (entry cell)) (w : world),
  exists k,
    k <= List.length numbers
    /\ http_log (snd (send_loop net py_str api_token phone_number_id selected
                                variables total i numbers results w))
       = http_log w
         ++ map (request_for py_str api_token phone_number_id selected variables)
                (firstn k numbers)
    /\ (forall rs,
           fst (send_loop net py_str api_token phone_number_id selected
                          variables total i numbers results w) = Ok rs ->
           k = List.length numbers
           /\ map phone_number rs = map phone_number results ++ numbers).
Proof.
  induction numbers as [|number rest IH]; intros i results w.
  - exists 0. split; [simpl; lia|]. split.
    + simpl. now rewrite app_nil_r.
    + intros rs Hrs. simpl in Hrs. injection Hrs as <-.
      rewrite app_nil_r. auto.
  - rewrite send_loop_step.
    set (w1 := show _ w).
    pose proof (send_template_message_world net api_token phone_number_id
                  (py_str number) selected variables w1) as Hw.
    destruct (send_template_message net api_token phone_number_id
                (py_str number) selected variables w1) as [[answer|e] w2];
      simpl in Hw; subst w2.
    + match goal with
      | |- context [send_loop _ _ _ _ _ _ _ _ _ ?rs' ?w3] =>
          destruct (IH (S i) rs' w3) as (k & Hk & Hlog & Hok)
      end.
      exists (S k). split; [simpl; lia|]. split.
      * rewrite Hlog. simpl. now rewrite <- app_assoc.
      * intros rs Hrs. destruct (Hok rs Hrs) as [-> Hnum]. split; auto.
        rewrite Hnum, map_app, <- app_assoc. reflexivity.
    + exists 1. split; [simpl; lia|]. split.
      * reflexivity.
      * discriminate.
Qed.

(** When every answer of the provider is a response with a decodable body,
    whatever its status, the loop runs to its end. *)
Lemma send_loop_completes (numbers : list cell) :
  (forall n req, exists r body, net n req = Responds r /\ json_result r = inr body) ->
  forall (i : nat) (results : list (entry cell)) (w : world),
  exists rs,
    fst (send_loop net py_str api_token phone_number_id selected
                   variables total i numbers results w) = Ok rs.
Proof.
  intros Hnet.
  induction numbers as [|number rest IH]; intros i results w.
  - eexists. reflexivity.
  - rewrite send_loop_step.
    set (w1 := show _ w).
    destruct (Hnet (List.length (http_log w1))
                   (request_for py_str api_token phone_number_id selected
                                variables number))
      as (r & body & Hr & Hbody).
    destruct (send_template_message_answered net api_token phone_number_id
                (py_str number) selected variables w1 Hr Hbody)
      as (answer & Hanswer & _).
    destruct (send_template_message net api_token phone_number_id
                (py_str number) selected variables w1) as [res w2].
    simpl in Hanswer. subst res. apply IH.
Qed.

End Loop.

(** How the button runs once the checks of lines 187-206 have passed. *)
Lemma send_button_runs (l : locals cell) (w : world) (selected : json)
      (df : dataframe cell) (col input : string) :
  selected_template l = Some selected ->
  edited_df l = Some df ->
  df_empty df = false ->
  phone_col l = Some col ->
  truthy col = true ->
  (250 <? df_len (df_selected df))%nat = false ->
  existsb (String.eqb col) (columns df) = true ->
  template_variables_input l = Some input ->
  recipients l <> [] ->
  send_button net py_str api_token phone_number_id l w
  = match send_loop net py_str api_token phone_number_id selected
                    (parse_variables input) (List.length (recipients l)) 0
                    (recipients l) []
                    (show (St_progress 0 (List.length (recipients l)))
                       (show (St_info (Msg_preparing selected
                                         (List.length (recipients l)))) w))
    with
    | (Ok results, w') =>
        (Ok (Some results),
         snd (show_results py_str (List.length (recipients l)) results w'))
    | (Raise e, w') => (Raise e, w')
    end.
Proof.
  intros Hsel Hdf Hempty Hcol Htruthy Hcap Hin Hinput Hsome.
  unfold send_button, recipients in *.
  rewrite Hsel, Hdf, Hempty, Hcol, Htruthy, Hcap in *. cbn [negb].
  unfold bind at 1. unfold df_column. cbn [df_selected columns].
  rewrite Hin. unfold ret at 1.
  unfold bind at 1. rewrite Hinput. cbn [name_of]. unfold ret at 1.
  cbn [df_selected rows] in *.
  set (numbers := map _ _) in *.
  destruct numbers as [|number rest] eqn:Hnumbers; [congruence|].
  cbn [nonempty negb].
  unfold bind at 1. cbn [st]. unfold bind at 1. cbn [st].
  unfold bind at 1. unfold show. cbn [http_log st_log].
  destruct (send_loop _ _ _ _ _ _ _ _ _ _ _) as [[results|e] w']; [|reflexivity].
  unfold bind at 1.
  destruct (show_results_world (List.length (number :: rest)) results w')
    as [Hok _].
  destruct (show_results _ _ _ _) as [res w'']. simpl in Hok. subst res.
  reflexivity.
Qed.

Ltac use_equations :=
  repeat match goal with
         | H : ?x = _ |- context [?x] => rewrite H
         end.

Ltac turned_down :=
  unfold send_button, recipients; use_equations;
  cbv [bind st ret raise df_column name_of negb nonempty];
  cbn [df_selected columns rows]; use_equations;
  cbn [http_log st_log snd fst].

Lemma to_field_request_for (selected : json) (variables : list string)
      (numbers : list cell) :
  map to_field
      (map (request_for py_str api_token phone_number_id selected variables)
           numbers)
  = map (fun number => Some (JStr (py_str number))) numbers.
Proof.
  rewrite map_map. apply map_ext. reflexivity.
Qed.

(** The requests a press of the button adds to the log are those of a
    prefix of the recipients, in order, all carrying the one template and the
    one list of variables; when the press ends with a list of results, the
    prefix is the whole list and there is one result per recipient, in
    order. *)
Lemma send_button_log (l : locals cell) (w : world) :
  exists k selected variables,
    http_log (snd (send_button net py_str api_token phone_number_id l w))
    = http_log w
      ++ map (request_for py_str api_token phone_number_id selected variables)
             (firstn k (recipients l))
    /\ (forall results,
           fst (send_button net py_str api_token phone_number_id l w)
           = Ok (Some results) ->
           k = List.length (recipients l)
           /\ map phone_number results = recipients l).
Proof.
  destruct (selected_template l) as [selected|] eqn:Hsel;
    [|exists 0, JNull, []; turned_down; rewrite app_nil_r; split;
      [reflexivity | discriminate]].
  destruct (edited_df l) as [df|] eqn:Hdf;
    [|exists 0, JNull, []; turned_down; rewrite app_nil_r; split;
      [reflexivity | discriminate]].
  destruct (df_empty df) eqn:Hempty;
    [exists 0, JNull, []; turned_down; rewrite app_nil_r; split;
     [reflexivity | discriminate]|].
  destruct (phone_col l) as [col|] eqn:Hcol;
    [|exists 0, JNull, []; turned_down; rewrite app_nil_r; split;
      [reflexivity | discriminate]].
  destruct (truthy col) eqn:Htruthy;
    [|exists 0, JNull, []; turned_down; rewrite app_nil_r; split;
      [reflexivity | discriminate]].
  destruct (250 <? df_len (df_selected df))%nat eqn:Hcap;
    [exists 0, JNull, []; turned_down; rewrite app_nil_r; split;
     [reflexivity | discriminate]|].
  destruct (existsb (String.eqb col) (columns df)) eqn:Hin;
    [|exists 0, JNull, []; turned_down; rewrite app_nil_r; split;
      [reflexivity | discriminate]].
  destruct (template_variables_input l) as [input|] eqn:Hinput;
    [|exists 0, JNull, []; turned_down; rewrite app_nil_r; split;
      [reflexivity | discriminate]].
  destruct (recipients l) as [|number rest] eqn:Hrec.
  - exists 0, JNull, []. unfold recipients in Hrec.
    rewrite Hdf, Hcol in Hrec. cbn [df_selected rows] in Hrec.
    turned_down. rewrite app_nil_r. split; [reflexivity | discriminate].
  - assert (Hsome : recipients l <> []) by congruence.
    rewrite (send_button_runs l w Hsel Hdf Hempty Hcol Htruthy Hcap Hin
                              Hinput Hsome).
    rewrite Hrec.
    match goal with
    | |- context [send_loop _ _ _ _ ?sel ?vars ?total ?i ?nums ?rs ?w0] =>
        destruct (send_loop_log sel vars total nums i rs w0)
          as (k & _ & Hlog & Hok);
        destruct (send_loop net py_str api_token phone_number_id
                            sel vars total i nums rs w0)
          as [[results|e] w'];
        exists k, sel, vars
    end; cbn [snd fst] in *.
    + destruct (show_results_world (List.length (number :: rest)) results w')
        as [_ Hshow].
      rewrite Hshow, Hlog. split; [reflexivity|].
      intros results' [= <-]. apply Hok. reflexivity.
    + rewrite Hlog. split; [reflexivity | discriminate].
Qed.

(** C10: whatever the cells of the chosen column hold, the "to" fields of
    the requests the button issues are, recipient by recipient and in order,
    the JSON strings [str(number)]; every recipient is covered when the
    press ends with its list of results. *)
Theorem to_field_is_str_of_number (l : locals cell) (w : world) :
  exists k reqs,
    http_log (snd (send_button net py_str api_token phone_number_id l w))
    = http_log w ++ reqs
    /\ map to_field reqs
       = map (fun number => Some (JStr (py_str number)))
             (firstn k (recipients l))
    /\ (forall results,
           fst (send_button net py_str api_token phone_number_id l w)
           = Ok (Some results) ->
           k = List.length (recipients l)).
Proof.
  destruct (send_button_log l w) as (k & selected & variables & Hlog & Hok).
  exists k. eexists. split; [exact Hlog|]. split.
  - apply to_field_request_for.
  - intros results Hres. now apply (Hok results).
Qed.

Lemma selected_of_empty (df : dataframe cell) :
  df_empty df = true -> df_len (df_selected df) = 0.
Proof.
  unfold df_empty, df_len, df_selected. cbn [rows].
  destruct (rows df); [reflexivity | discriminate].
Qed.

(** C1: with more than 250 rows selected, a press of the send button issues
    no request at all, returns no result and shows exactly one message, a
    rejection; with a template and a phone column chosen it is the error
    that names the count and the maximum. *)
Theorem over_cap_rejected (l : locals cell) (df : dataframe cell) (w : world) :
  edited_df l = Some df ->
  250 < df_len (df_selected df) ->
  exists c,
    rejection c = true
    /\ send_button net py_str api_token phone_number_id l w
       = (Ok None, show c w)
    /\ (selected_template l <> None ->
        (exists col, phone_col l = Some col /\ truthy col = true) ->
        c = St_error (Msg_cap_exceeded (df_len (df_selected df)))).
Proof.
  intros Hdf Hover.
  assert (Hcap : (250 <? df_len (df_selected df))%nat = true)
    by now apply Nat.ltb_lt.
  assert (Hempty : df_empty df = false).
  { destruct (df_empty df) eqn:He; [|reflexivity].
    apply selected_of_empty in He. lia. }
  destruct (selected_template l) as [selected|] eqn:Hsel.
  - destruct (phone_col l) as [col|] eqn:Hcol.
    + destruct (truthy col) eqn:Htruthy.
      * eexists. split; [|split; [turned_down; reflexivity|]]; auto.
      * eexists. split; [|split; [turned_down; reflexivity|]];
          [reflexivity|].
        intros _ (col' & [= <-] & Hc). congruence.
    + eexists. split; [|split; [turned_down; reflexivity|]]; [reflexivity|].
      intros _ (col' & [=] & _).
  - eexists. split; [|split; [turned_down; reflexivity|]]; [reflexivity|].
    congruence.
Qed.

(** A press with the template, the table or the phone column missing issues
    no request. *)
Lemma send_button_input_missing (l : locals cell) (w : world) :
  selected_template l = None \/ edited_df l = None
  \/ phone_col l = None \/ phone_col l = Some ""%string ->
  exists c,
    rejection c = true
    /\ send_button net py_str api_token phone_number_id l w
       = (Ok None, show c w).
Proof.
  intros Hmissing.
  destruct (selected_template l) as [selected|] eqn:Hsel;
    [|eexists; split; [|turned_down; reflexivity]; reflexivity].
  destruct (edited_df l) as [df|] eqn:Hdf;
    [|eexists; split; [|turned_down; reflexivity]; reflexivity].
  destruct (df_empty df) eqn:Hempty;
    [eexists; split; [|turned_down; reflexivity]; reflexivity|].
  destruct Hmissing as [H|[H|[H|H]]]; try discriminate;
    eexists; (split; [|turned_down; reflexivity]); reflexivity.
Qed.


End Button.

Lemma over_cap_rejected_run :
  exists c,
    rejection c = true
    /\ send_button net_ok str_scalar "EAAG" "1055"
                   (ready "hello_world" ""
                          (repeat (Int 15550000001) 251)) fresh
       = (Ok None, show c fresh)
    /\ (selected_template
          (ready "hello_world" "" (repeat (Int 15550000001) 251)) <> None ->
        (exists col,
            phone_col (ready "hello_world" ""
                             (repeat (Int 15550000001) 251)) = Some col
            /\ truthy col = true) ->
        c = St_error
              (Msg_cap_exceeded
                 (df_len (df_selected
                            (contacts (repeat (Int 15550000001) 251)))))).
Proof.
  apply (@over_cap_rejected net_ok scalar str_scalar "EAAG" "1055"
           (ready "hello_world" "" (repeat (Int 15550000001) 251))
           (contacts (repeat (Int 15550000001) 251)) fresh).
  - reflexivity.
  - apply Nat.ltb_lt. vm_compute. reflexivity.
Defined.

(** ** The fetch button *)

(** Without the token or the account id, the fetch button issues no
    request, reports the error and leaves the session's templates as they
    were. *)
Lemma fetch_button_without_credentials
      (net : network) (api_token waba_id : string)
      (session_templates : list json) (w : world) :
  truthy api_token && truthy waba_id = false ->
  fetch_button net api_token waba_id session_templates w
  = (Ok session_templates, show (St_error Msg_provide_credentials) w).
Proof.
  intros Hmissing. unfold fetch_button. rewrite Hmissing. reflexivity.
Qed.

(** ** Where the script departs from the specification *)

(** C2 on the script: of three recipients, the connection drops on the
    second; the handler of [send_template_message] raises in its turn, the
    exception leaves the loop, and the third recipient is never written to. *)
Theorem transport_failure_halts_loop :
  fst (send_button (net_drop 1) str_scalar "EAAG" "1055"
                   (ready "hello_world" ""
                          [Int 15550000001; Int 15550000002; Int 15550000003])
                   fresh)
  = Raise (UnboundLocalError "response")
  /\ map to_field
         (http_log
            (snd (send_button (net_drop 1) str_scalar "EAAG" "1055"
                    (ready "hello_world" ""
                       [Int 15550000001; Int 15550000002; Int 15550000003])
                    fresh)))
     = [Some (JStr "15550000001"); Some (JStr "15550000002")].
Proof.
  split; vm_compute; reflexivity.
Qed.

(** C6 on the script: two recipients, well under the cap; the connection
    drops on the first request and the press ends in an exception, with no
    list of outcomes at all. *)
Theorem transport_failure_loses_outcomes :
  df_len (df_selected (contacts [Int 15550000001; Int 15550000002])) <= 250
  /\ forall results,
      fst (send_button (net_drop 0) str_scalar "EAAG" "1055"
                       (ready "hello_world" ""
                              [Int 15550000001; Int 15550000002])
                       fresh)
      <> Ok results.
Proof.
  split; [apply Nat.leb_le; reflexivity|].
  intros results. vm_compute. discriminate.
Qed.

(** C8 on the script: the phone number id was never entered; the send
    button checks no credential and posts all the same. *)
Theorem send_without_phone_number_id :
  truthy "" = false
  /\ map url
         (http_log
            (snd (send_button net_ok str_scalar "EAAG" ""
                    (ready "hello_world" "" [Int 15550000001]) fresh)))
     = ["https://graph.facebook.com/v19.0//messages"%string].
Proof.
  split; vm_compute; reflexivity.
Qed.

(** * Further properties of the script *)

(** ** The variables read from the text area *)

Lemma has_newline_app (s t : string) :
  has_newline (s ++ t) = has_newline s || has_newline t.
Proof.
  induction s as [|c s IH]; simpl; auto.
  now rewrite IH, orb_assoc.
Qed.

Lemma split_lines_no_newline (s : string) :
  forall line, In line (split_lines s) -> has_newline line = false.
Proof.
  induction s as [|c s IH]; simpl.
  - intros line [<-|[]]. reflexivity.
  - destruct (Ascii.eqb c newline) eqn:Hc.
    + intros line [<-|Hin]; [reflexivity | now apply IH].
    + destruct (split_lines s) as [|l ls].
      * intros line [<-|[]]. simpl. now rewrite Hc.
      * intros line [<-|Hin].
        -- simpl. rewrite Hc. apply IH. now left.
        -- apply IH. now right.
Qed.

Lemma trimmed_no_newline (line t : string) :
  trimmed_of line t -> has_newline line = false -> has_newline t = false.
Proof.
  intros (pre & post & -> & _) Hline.
  rewrite !has_newline_app in Hline.
  apply orb_false_iff in Hline as [_ Hline].
  now apply orb_false_iff in Hline as [Hline _].
Qed.

(** X1: every variable read from the text area is non-empty, neither starts
    nor ends with whitespace, and holds no line break. *)
Theorem parsed_variables_are_clean (raw var : string) :
  In var (parse_variables raw) ->
  truthy var = true
  /\ starts_with_space var = false
  /\ ends_with_space var = false
  /\ has_newline var = false.
Proof.
  unfold parse_variables. intros Hin.
  apply in_map_iff in Hin as (line & <- & Hline).
  apply filter_In in Hline as [Hline Htruthy].
  destruct (strip_trimmed line) as (pre & post & Heq & Hpre & Hpost & Hhd & Hlast).
  repeat split; auto.
  apply (trimmed_no_newline (strip_trimmed line)).
  now apply (split_lines_no_newline raw).
Qed.

Lemma parsed_variables_are_clean_run :
  truthy "42" = true
  /\ starts_with_space "42" = false
  /\ ends_with_space "42" = false
  /\ has_newline "42" = false.
Proof.
  apply (@parsed_variables_are_clean two_variables "42").
  vm_compute. right. left. reflexivity.
Defined.

(** ** More on the template lister *)

Lemma approved_names_nameless (entries : list (list (string * json))) (w : world) :
  (exists e, In e entries /\ approved e = true /\ dict_get "name" e = None) ->
  approved_names (map JObj entries) w = (Raise (KeyError "name"), w).
Proof.
  induction entries as [|e entries IH]; intros (bad & Hin & Happ & Hname).
  - destruct Hin.
  - cbn [map]. rewrite approved_names_object.
    destruct Hin as [<-|Hin].
    + now rewrite Happ, Hname.
    + assert (Hrest : approved_names (map JObj entries) w
                      = (Raise (KeyError "name"), w))
        by (apply IH; eauto).
      destruct (approved e); [|exact Hrest].
      destruct (dict_get "name" e); [|reflexivity].
      now rewrite Hrest.
Qed.

Section ListerMore.

Variable net : network.
Variables token waba_id : string.



(** X3: a response whose status passes but whose body does not decode gives
    the empty list, with the decoding error reported as a fetch error. *)
Theorem lister_undecodable_body (w : world) (r : response) (msg : string) :
  net (List.length (http_log w)) (templates_request token waba_id)
  = Responds r ->
  http_error r = false ->
  json_result r = inl msg ->
  get_message_templates net token waba_id w
  = (Ok [], after_request (templates_request token waba_id)
              [St_error (Msg_error_fetching (RequestException msg))] w).
Proof.
  intros Hnet Hstatus Hbody.
  exact (lister_on_undecodable net token waba_id w Hnet Hstatus Hbody).
Qed.

(** X4: one approved entry without a "name" spoils the whole listing: the
    lister returns the empty list, whatever other approved entries there
    are, reports the [KeyError] as unexpected and shows the raw body. *)
Theorem lister_nameless_entry (w : world) (r : response)
        (fields : list (string * json))
        (entries : list (list (string * json))) :
  net (List.length (http_log w)) (templates_request token waba_id)
  = Responds r ->
  http_error r = false ->
  json_result r = inr (JObj fields) ->
  dict_get "data" fields = Some (JArr (map JObj entries)) ->
  (exists e, In e entries /\ approved e = true /\ dict_get "name" e = None) ->
  get_message_templates net token waba_id w
  = (Ok [], after_request (templates_request token waba_id)
              [St_error (Msg_unexpected (KeyError "name"));
               St_json (JObj fields)] w).
Proof.
  intros Hnet Hstatus Hbody Hdata Hbad.
  rewrite (lister_on_body net token waba_id w Hnet Hstatus Hbody).
  unfold bind at 1. cbn [py_get]. rewrite Hdata. unfold ret at 1.
  unfold bind at 1. cbn [py_iter]. unfold ret at 1.
  now rewrite (approved_names_nameless _ _ Hbad).
Qed.

End ListerMore.

Lemma lister_undecodable_body_run :
  get_message_templates
    (net_const {| status_code := 200; reason := "OK"; response_url := "";
                  json_result := inl "Expecting value: line 1 column 1 (char 0)" |})
    "EAAG" "1020" fresh
  = (Ok [], after_request (templates_request "EAAG" "1020")
              [St_error (Msg_error_fetching
                           (RequestException
                              "Expecting value: line 1 column 1 (char 0)"))]
              fresh).
Proof.
  apply (@lister_undecodable_body
           (net_const {| status_code := 200; reason := "OK"; response_url := "";
                         json_result :=
                           inl "Expecting value: line 1 column 1 (char 0)" |})
           "EAAG" "1020" fresh
           {| status_code := 200; reason := "OK"; response_url := "";
              json_result := inl "Expecting value: line 1 column 1 (char 0)" |}
           "Expecting value: line 1 column 1 (char 0)");
    reflexivity.
Defined.

Lemma lister_nameless_entry_run :
  get_message_templates
    (net_const (listing 200 [template "welcome" "APPROVED";
                             JObj [("status", JStr "APPROVED")]]))
    "EAAG" "1020" fresh
  = (Ok [], after_request (templates_request "EAAG" "1020")
              [St_error (Msg_unexpected (KeyError "name"));
               St_json (JObj [("data",
                               JArr [template "welcome" "APPROVED";
                                     JObj [("status", JStr "APPROVED")]])])]
              fresh).
Proof.
  apply (@lister_nameless_entry
           (net_const (listing 200 [template "welcome" "APPROVED";
                                    JObj [("status", JStr "APPROVED")]]))
           "EAAG" "1020" fresh
           (listing 200 [template "welcome" "APPROVED";
                         JObj [("status", JStr "APPROVED")]])
           [("data", JArr [template "welcome" "APPROVED";
                           JObj [("status", JStr "APPROVED")]])]
           [[("name", JStr "welcome"); ("status", JStr "APPROVED")];
            [("status", JStr "APPROVED")]]).
  - reflexivity.
  - reflexivity.
  - reflexivity.
  - reflexivity.
  - exists [("status", JStr "APPROVED")]. split; [simpl; auto|].
    split; reflexivity.
Defined.

(** ** More on one message *)

Section MessageMore.

Variable net : network.
Variables token phone_id to_phone_number : string.
Variable template_name : json.
Variable variables : list string.

(** X5: a call of [send_template_message] issues exactly one request, the
    POST of the message, and shows nothing on the page, whether it returns
    or raises. *)
Theorem send_template_message_one_request (w : world) :
  exists outcome,
    send_template_message net token phone_id to_phone_number
                          template_name variables w
    = (outcome,
       after_request (message_request token phone_id to_phone_number
                                      template_name variables) [] w).
Proof.
  pose proof (send_template_message_world net token phone_id to_phone_number
                template_name variables w) as Hw.
  destruct (send_template_message net token phone_id to_phone_number
              template_name variables w) as [outcome w'].
  simpl in Hw. subst w'. now exists outcome.
Qed.

(** X6: when the provider answers with a decodable body, the call returns
    [{"success": True, "data": body}] if the status passes, and otherwise
    [{"success": False, "error": ..., "details": body}], the body of the
    error response being kept as the details. *)
Theorem send_template_message_outcome (w : world) (r : response) (body : json) :
  net (List.length (http_log w))
      (message_request token phone_id to_phone_number template_name variables)
  = Responds r ->
  json_result r = inr body ->
  fst (send_template_message net token phone_id to_phone_number
                             template_name variables w)
  = if http_error r
    then Ok (JObj [("success", JBool false);
                   ("error",
                    JStr (http_error_msg
                            (if (status_code r <? 500)%Z then "Client"
                             else "Server") r));
                   ("details", body)])
    else Ok (JObj [("success", JBool true); ("data", body)]).
Proof.
  intros Hnet Hbody. unfold send_template_message, try_with, requests.
  rewrite Hnet. unfold http_error.
  cbv [bind ret raise local response_json raise_for_status].
  destruct (400 <=? status_code r)%Z eqn:H4,
           (status_code r <? 500)%Z eqn:H5,
           (500 <=? status_code r)%Z eqn:H6,
           (status_code r <? 600)%Z eqn:H7;
    cbn; rewrite ?Hbody; cbn; rewrite ?Hbody; try reflexivity;
    exfalso;
    rewrite ?Z.leb_le, ?Z.leb_gt, ?Z.ltb_lt, ?Z.ltb_ge in *; lia.
Qed.

(** X7: when the body of the answer does not decode, the decoding error
    leaves [send_template_message], whatever the status: on success it is
    caught and raised again by the handler's own [response.json()]. *)
Theorem send_template_message_undecodable (w : world) (r : response)
        (msg : string) :
  net (List.length (http_log w))
      (message_request token phone_id to_phone_number template_name variables)
  = Responds r ->
  json_result r = inl msg ->
  fst (send_template_message net token phone_id to_phone_number
                             template_name variables w)
  = Raise (RequestException msg).
Proof.
  intros Hnet Hbody. unfold send_template_message, try_with, requests.
  rewrite Hnet.
  cbv [bind ret raise local response_json raise_for_status].
  destruct ((400 <=? status_code r) && (status_code r <? 500))%Z;
    [|destruct ((500 <=? status_code r) && (status_code r <? 600))%Z];
    cbn; rewrite ?Hbody; cbn; rewrite ?Hbody; reflexivity.
Qed.


End MessageMore.

Lemma send_template_message_outcome_run :
  fst (send_template_message
         (net_const {| status_code := 400; reason := "Bad Request";
                       response_url := "";
                       json_result := inr (JObj [("error", JStr "(#131030)")]) |})
         "EAAG" "1055" "15550000001" (JStr "hello_world") [] fresh)
  = Ok (JObj [("success", JBool false);
              ("error", JStr "400 Client Error: Bad Request for url: ");
              ("details", JObj [("error", JStr "(#131030)")])]).
Proof.
  apply (@send_template_message_outcome
           (net_const {| status_code := 400; reason := "Bad Request";
                         response_url := "";
                         json_result :=
                           inr (JObj [("error", JStr "(#131030)")]) |})
           "EAAG" "1055" "15550000001" (JStr "hello_world") [] fresh
           {| status_code := 400; reason := "Bad Request"; response_url := "";
              json_result := inr (JObj [("error", JStr "(#131030)")]) |}
           (JObj [("error", JStr "(#131030)")]));
    reflexivity.
Defined.

Lemma send_template_message_undecodable_run :
  fst (send_template_message
         (net_const {| status_code := 502; reason := "Bad Gateway";
                       response_url := "";
                       json_result := inl "Expecting value" |})
         "EAAG" "1055" "15550000001" (JStr "hello_world") [] fresh)
  = Raise (RequestException "Expecting value").
Proof.
  apply (@send_template_message_undecodable
           (net_const {| status_code := 502; reason := "Bad Gateway";
                         response_url := "";
                         json_result := inl "Expecting value" |})
           "EAAG" "1055" "15550000001" (JStr "hello_world") [] fresh
           {| status_code := 502; reason := "Bad Gateway"; response_url := "";
              json_result := inl "Expecting value" |}
           "Expecting value");
    reflexivity.
Defined.

(** ** More on the send loop and the send button *)

Section ButtonMore.

Variable net : network.
Variable cell : Type.
Variable py_str : cell -> string.
Variables api_token phone_number_id : string.



Section LoopMore.

Variable selected : json.
Variable variables : list string.
Variable total : nat.

(** X9: when the loop ends normally, what it showed is, recipient by
    recipient and in order, a spinner naming the number and its rank and
    then the progress (rank of the recipient over the total). *)
Theorem send_loop_calls (numbers : list cell) :
  forall (i : nat) (results rs : list (entry cell)) (w w' : world),
    send_loop net py_str api_token phone_number_id selected variables total i
              numbers results w = (Ok rs, w') ->
    st_log w' = st_log w ++ loop_calls py_str total i numbers.
Proof.
  induction numbers as [|number rest IH]; intros i results rs w w'.
  - simpl. intros [= _ <-]. now rewrite app_nil_r.
  - rewrite send_loop_step.
    pose proof (send_template_message_world net api_token phone_number_id
                  (py_str number) selected variables
                  (show (St_spinner (Msg_sending (py_str number) (i + 1) total)) w))
      as Hw.
    destruct (send_template_message _ _ _ _ _ _ _) as [[answer|e] w1];
      [|discriminate].
    cbn [snd] in Hw. subst w1.
    intros Hrest. apply IH in Hrest. rewrite Hrest.
    cbn [show after_request st_log loop_calls].
    rewrite app_nil_r, <- !app_assoc. reflexivity.
Qed.

End LoopMore.

Lemma none_flagged (df : dataframe cell) :
  (forall r, In r (rows df) -> Send r = false) ->
  rows (df_selected df) = [].
Proof.
  unfold df_selected. cbn [rows]. intros Hnone.
  induction (rows df) as [|r rs IH]; simpl; auto.
  rewrite (Hnone r) by (simpl; auto). simpl.
  apply IH. intros r' Hr'. apply Hnone. simpl. auto.
Qed.

(** X10: with a template, a table and a phone column chosen but every
    'Send' box unchecked, a press of the button issues no request and shows
    the one warning that no recipient is selected. *)
Theorem no_recipient_flagged (l : locals cell) (w : world) (selected : json)
        (df : dataframe cell) (col input : string) :
  selected_template l = Some selected ->
  edited_df l = Some df ->
  df_empty df = false ->
  phone_col l = Some col ->
  truthy col = true ->
  existsb (String.eqb col) (columns df) = true ->
  template_variables_input l = Some input ->
  (forall r, In r (rows df) -> Send r = false) ->
  send_button net py_str api_token phone_number_id l w
  = (Ok None, show (St_warning Msg_no_recipients) w).
Proof.
  intros Hsel Hdf Hempty Hcol Htruthy Hin Hinput Hnone.
  pose proof (none_flagged df Hnone) as Hrows.
  unfold send_button. rewrite Hsel, Hdf, Hempty, Hcol, Htruthy. cbn [negb].
  unfold df_len. rewrite Hrows. cbn [List.length Nat.ltb Nat.leb].
  unfold bind at 1. unfold df_column. cbn [df_selected columns]. rewrite Hin.
  unfold ret at 1. unfold bind at 1. rewrite Hinput. cbn [name_of].
  unfold ret at 1.
  rewrite Hrows. reflexivity.
Qed.

(** X11: when the checks pass and the provider answers every request with
    a decodable body, whatever the statuses, a press of the button issues
    exactly one request per recipient, in order, each with the chosen
    template and the variables of the text area, and returns one result per
    recipient, in the same order. *)
Theorem complete_run (l : locals cell) (w : world) (selected : json)
        (df : dataframe cell) (col input : string) :
  (forall n req, exists r body, net n req = Responds r /\ json_result r = inr body) ->
  selected_template l = Some selected ->
  edited_df l = Some df ->
  phone_col l = Some col ->
  truthy col = true ->
  df_len (df_selected df) <= 250 ->
  existsb (String.eqb col) (columns df) = true ->
  template_variables_input l = Some input ->
  recipients l <> [] ->
  exists results w',
    send_button net py_str api_token phone_number_id l w
    = (Ok (Some results), w')
    /\ map phone_number results = recipients l
    /\ http_log w'
       = http_log w
         ++ map (request_for py_str api_token phone_number_id selected
                             (parse_variables input))
                (recipients l).
Proof.
  intros Hnet Hsel Hdf Hcol Htruthy Hcap Hin Hinput Hsome.
  assert (Hempty : df_empty df = false).
  { unfold recipients in Hsome. rewrite Hdf, Hcol in Hsome.
    unfold df_empty. cbn [df_selected rows] in Hsome.
    destruct (rows df); [now elim Hsome | reflexivity]. }
  assert (Hcap' : (250 <? df_len (df_selected df))%nat = false)
    by now apply Nat.ltb_ge.
  rewrite (send_button_runs net py_str api_token phone_number_id l w
             Hsel Hdf Hempty Hcol Htruthy Hcap' Hin Hinput Hsome).
  match goal with
  | |- context [send_loop _ _ _ _ ?sel ?vars ?total ?i ?nums ?rs ?w0] =>
      destruct (send_loop_completes net py_str api_token phone_number_id
                  sel vars total nums Hnet i rs w0) as (results & Hres);
      destruct (send_loop_log net py_str api_token phone_number_id
                  sel vars total nums i rs w0) as (k & _ & Hlog & Hok);
      destruct (send_loop net py_str api_token phone_number_id
                          sel vars total i nums rs w0) as [res w1]
  end.
  cbn [fst snd] in *. subst res.
  destruct (Hok results eq_refl) as [-> Hnumbers].
  rewrite firstn_all in Hlog.
  destruct (show_results_world py_str (List.length (recipients l)) results w1)
    as [_ Hshow].
  do 2 eexists. split; [reflexivity|]. split; [exact Hnumbers|].
  rewrite Hshow, Hlog. reflexivity.
Qed.





End ButtonMore.

Lemma send_loop_calls_run :
  st_log (snd (send_loop net_ok str_scalar "EAAG" "1055" (JStr "hello_world")
                         [] 2 0 [Int 15550000001; Int 15550000002] [] fresh))
  = st_log fresh
    ++ loop_calls str_scalar 2 0 [Int 15550000001; Int 15550000002].
Proof.
  eapply (@send_loop_calls net_ok scalar str_scalar "EAAG" "1055"
            (JStr "hello_world") [] 2 [Int 15550000001; Int 15550000002]
            0 [] _ fresh).
  vm_compute. reflexivity.
Defined.

Lemma no_recipient_flagged_run :
  send_button net_ok str_scalar "EAAG" "1055"
    {| selected_template := Some (JStr "hello_world");
       template_variables_input := Some "";
       edited_df :=
         Some {| columns := ["phone"];
                 rows := [{| Send := false;
                             cell_at := fun _ => Int 15550000001 |}] |};
       phone_col := Some "phone" |} fresh
  = (Ok None, show (St_warning Msg_no_recipients) fresh).
Proof.
  apply (@no_recipient_flagged net_ok scalar str_scalar "EAAG" "1055"
           {| selected_template := Some (JStr "hello_world");
              template_variables_input := Some "";
              edited_df :=
                Some {| columns := ["phone"];
                        rows := [{| Send := false;
                                    cell_at := fun _ => Int 15550000001 |}] |};
              phone_col := Some "phone" |} fresh
           (JStr "hello_world")
           {| columns := ["phone"];
              rows := [{| Send := false;
                          cell_at := fun _ => Int 15550000001 |}] |}
           "phone" "").
  - reflexivity.
  - reflexivity.
  - reflexivity.
  - reflexivity.
  - reflexivity.
  - reflexivity.
  - reflexivity.
  - intros r [<-|[]]. reflexivity.
Defined.

Lemma complete_run_run :
  exists results w',
    send_button net_ok str_scalar "EAAG" "1055"
                (ready "hello_world" "Asha"
                       [Int 15550000001; Str "+15550000002"]) fresh
    = (Ok (Some results), w')
    /\ map phone_number results
       = recipients (ready "hello_world" "Asha"
                           [Int 15550000001; Str "+15550000002"])
    /\ http_log w'
       = http_log fresh
         ++ map (request_for str_scalar "EAAG" "1055" (JStr "hello_world")
                             (parse_variables "Asha"))
                (recipients (ready "hello_world" "Asha"
                                   [Int 15550000001; Str "+15550000002"])).
Proof.
  apply (@complete_run net_ok scalar str_scalar "EAAG" "1055"
           (ready "hello_world" "Asha" [Int 15550000001; Str "+15550000002"])
           fresh (JStr "hello_world")
           (contacts [Int 15550000001; Str "+15550000002"]) "phone" "Asha").
  - intros n req. do 2 eexists. split; reflexivity.
  - reflexivity.
  - reflexivity.
  - reflexivity.
  - reflexivity.
  - apply Nat.leb_le. reflexivity.
  - reflexivity.
  - reflexivity.
  - discriminate.
Defined.

(** ** The fetch button *)

Section FetchMore.

Variable net : network.
Variables api_token waba_id : string.


(** X13: with both credentials entered, a fetch that fails (the transport,
    or a 4xx/5xx status) replaces the templates of the session, whatever
    they were, by the empty list, and shows the error and then the warning
    that nothing was found. *)
Theorem failed_fetch_clears_templates (session_templates : list json)
        (w : world) :
  truthy api_token && truthy waba_id = true ->
  (exists msg, net (List.length (http_log w))
                   (templates_request api_token waba_id)
               = Transport_failure msg)
  \/ (exists r, net (List.length (http_log w))
                    (templates_request api_token waba_id) = Responds r
                /\ http_error r = true) ->
  exists e,
    fetch_button net api_token waba_id session_templates w
    = (Ok [], after_request (templates_request api_token waba_id)
                [St_spinner Msg_fetching;
                 St_error (Msg_error_fetching e);
                 St_warning Msg_no_templates] w).
Proof.
  intros Hcred Hfail. unfold fetch_button. rewrite Hcred.
  unfold bind at 1. cbn [st]. unfold bind at 1.
  set (w1 := {| http_log := http_log w;
                st_log := st_log w ++ [St_spinner Msg_fetching] |}).
  assert (Hlister : exists e,
             get_message_templates net api_token waba_id w1
             = (Ok [], after_request (templates_request api_token waba_id)
                         [St_error (Msg_error_fetching e)] w1)).
  { destruct Hfail as [(msg & Hnet) | (r & Hnet & Hstatus)].
    - eexists. apply (lister_on_transport_failure net api_token waba_id w1 Hnet).
    - destruct (lister_on_http_error net api_token waba_id w1 Hnet Hstatus)
        as (msg & ->). eauto. }
  destruct Hlister as (e & ->). exists e.
  cbv [bind ret st nonempty after_request]. cbn [http_log st_log w1].
  rewrite <- !app_assoc. reflexivity.
Qed.

End FetchMore.

Lemma failed_fetch_clears_templates_run :
  exists e,
    fetch_button (net_drop 0) "EAAG" "1020" [JStr "hello_world"] fresh
    = (Ok [], after_request (templates_request "EAAG" "1020")
                [St_spinner Msg_fetching;
                 St_error (Msg_error_fetching e);
                 St_warning Msg_no_templates] fresh).
Proof.
  apply (@failed_fetch_clears_templates (net_drop 0) "EAAG" "1020"
           [JStr "hello_world"] fresh).
  - reflexivity.
  - left. eexists. reflexivity.
Defined.

(** ** The upload and the table *)

Section PageMore.

Variable cell : Type.

Lemma all_flagged (rs : list (row cell)) :
  (forall r, In r rs -> Send r = true) ->
  filter (fun r => Bool.eqb (Send r) true) rs = rs.
Proof.
  induction rs as [|r rs IH]; intros Hall; simpl; auto.
  rewrite (Hall r) by (simpl; auto). simpl. f_equal.
  apply IH. intros r' Hr'. apply Hall. simpl. auto.
Qed.

Lemma upload_new_table (s : session cell) (f : uploaded cell)
        (t : csv cell) :
  is_new_file s f = true ->
  read_csv f = inr t ->
  existsb (String.eqb "Send") (labels t) = false ->
  exists df,
    upload s f
    = ({| templates := templates s;
          df_for_editing := df;
          uploaded_filename := Some (file_name f) |}, None)
    /\ columns df = labels t
    /\ df_selected df = df
    /\ forall col, map (fun r => cell_at r col) (rows df)
                   = map (fun line => line col) (lines t).
Proof.
  intros Hnew Hread Hlabels.
  unfold upload, insert_send. rewrite Hnew, Hread, Hlabels.
  eexists. split; [reflexivity|]. split; [reflexivity|]. split.
  - unfold df_selected. cbn [columns rows]. f_equal.
    apply all_flagged. intros r Hr.
    apply in_map_iff in Hr as (line & <- & _). reflexivity.
  - intros col. cbn [rows]. rewrite map_map. reflexivity.
Qed.

(** X14: a new file that reads well and has no column called 'Send' puts
    into the session a table with the labels of the file in which every row
    is selected: the selection is the whole table, each column holding the
    cells of the file in the order of its lines; no error is shown. *)
Theorem upload_selects_every_row (s : session cell) (f : uploaded cell)
        (t : csv cell) :
  is_new_file s f = true ->
  read_csv f = inr t ->
  existsb (String.eqb "Send") (labels t) = false ->
  exists df,
    upload s f
    = ({| templates := templates s;
          df_for_editing := df;
          uploaded_filename := Some (file_name f) |}, None)
    /\ columns df = labels t
    /\ df_selected df = df
    /\ forall col, map (fun r => cell_at r col) (rows df)
                   = map (fun line => line col) (lines t).
Proof.
  exact (@upload_new_table s f t).
Qed.

Lemma upload_known_name (s : session cell) (f f' : uploaded cell)
        (t : csv cell) :
  read_csv f = inr t ->
  file_name f' = file_name f ->
  upload (fst (upload s f)) f' = (fst (upload s f), None).
Proof.
  intros Hread Hname.
  assert (Hknown : is_new_file (fst (upload s f)) f' = false).
  { unfold upload. destruct (is_new_file s f) eqn:Hnew.
    - rewrite Hread. unfold is_new_file.
      destruct (insert_send t); cbn; now rewrite Hname, String.eqb_refl.
    - cbn. unfold is_new_file in *. now rewrite Hname. }
  unfold upload at 1. now rewrite Hknown.
Qed.

(** X15: once a file has been read, a file of the same name is not read
    again: the session stays as it is and nothing is reported, whatever the
    file now holds. *)
Theorem upload_same_name_ignored (s : session cell) (f f' : uploaded cell)
        (t : csv cell) :
  read_csv f = inr t ->
  file_name f' = file_name f ->
  upload (fst (upload s f)) f' = (fst (upload s f), None).
Proof.
  exact (@upload_known_name s f f' t).
Qed.

(** X16: a file with a column of its own called 'Send' is refused: the
    error is shown and the table of the session is emptied; but its name has
    been stored already, so any later file of that name is ignored without a
    word and the table stays empty. *)
Theorem upload_send_column_refused (s : session cell) (f f' : uploaded cell)
        (t : csv cell) :
  is_new_file s f = true ->
  read_csv f = inr t ->
  existsb (String.eqb "Send") (labels t) = true ->
  file_name f' = file_name f ->
  upload s f
  = ({| templates := templates s;
        df_for_editing := empty_frame;
        uploaded_filename := Some (file_name f) |},
     Some "Error reading CSV file: cannot insert Send, already exists"%string)
  /\ upload (fst (upload s f)) f' = (fst (upload s f), None)
  /\ df_empty (df_for_editing (fst (upload (fst (upload s f)) f'))) = true.
Proof.
  intros Hnew Hread Hlabels Hname.
  rewrite (upload_known_name s f f' Hread Hname).
  unfold upload, insert_send. rewrite Hnew, Hread, Hlabels.
  repeat split.
Qed.

(** X17: when the file cannot be read, the error is shown and the table
    emptied, but the name is not stored: the next run of the script reads
    the file again. *)
Theorem upload_unreadable_retried (s : session cell) (f : uploaded cell)
        (e : string) :
  is_new_file s f = true ->
  read_csv f = inl e ->
  upload s f
  = ({| templates := templates s;
        df_for_editing := empty_frame;
        uploaded_filename := uploaded_filename s |},
     Some ("Error reading CSV file: " ++ e)%string)
  /\ is_new_file (fst (upload s f)) f = true.
Proof.
  intros Hnew Hread. unfold upload. rewrite Hnew, Hread.
  split; [reflexivity | exact Hnew].
Qed.

Lemma option_in_columns (df : dataframe cell) (col : string) :
  In col (phone_col_options df) ->
  col <> "Send"%string /\ existsb (String.eqb col) (columns df) = true.
Proof.
  unfold phone_col_options, df_columns. intros Hin.
  apply filter_In in Hin as [Hin Hne].
  apply negb_true_iff, String.eqb_neq in Hne. split; [exact Hne|].
  destruct Hin as [<-|Hin]; [congruence|].
  apply existsb_exists. exists col. split; [exact Hin | apply String.eqb_refl].
Qed.

(** X18: the column offered for the phone numbers is never 'Send', and
    reading any offered column of the table never raises: it gives the
    cells of that column, row by row. *)
Theorem offered_column_reads (df : dataframe cell) (col : string) (w : world) :
  In col (phone_col_options df) ->
  col <> "Send"%string
  /\ df_column col df w = (Ok (map (fun r => cell_at r col) (rows df)), w).
Proof.
  intros Hin. destruct (option_in_columns df col Hin) as [Hne Hcol].
  split; [exact Hne|]. unfold df_column. now rewrite Hcol.
Qed.

Lemma num_selected_len (df : dataframe cell) :
  num_selected df = df_len (df_selected df).
Proof.
  unfold num_selected, df_len, df_selected. cbn [rows].
  induction (rows df) as [|r rs IH]; simpl; auto.
  destruct (Send r); simpl; now rewrite IH.
Qed.

(** X19: the warning under the table and the refusal of the send button
    agree: the warning is shown exactly when more than 250 rows are in the
    selection the button would send to, and with the same count. *)
Theorem selection_warning_matches_cap (df : dataframe cell) :
  selection_warning df
  = if (250 <? df_len (df_selected df))%nat
    then Some (df_len (df_selected df))
    else None.
Proof.
  unfold selection_warning. now rewrite num_selected_len.
Qed.

(** X20: when exactly one row of the table is flagged, the numbers taken
    for sending are the one cell of that row in the phone column. *)
Theorem single_flagged_row (df : dataframe cell) (col : string)
        (before after : list (row cell)) (r : row cell) (w : world) :
  existsb (String.eqb col) (columns df) = true ->
  rows df = before ++ r :: after ->
  Send r = true ->
  (forall r', In r' (before ++ after) -> Send r' = false) ->
  df_column col (df_selected df) w = (Ok [cell_at r col], w).
Proof.
  intros Hcol Hrows Hr Hothers.
  unfold df_column. cbn [df_selected columns rows]. rewrite Hcol, Hrows.
  rewrite filter_app. cbn [filter]. rewrite Hr. cbn [Bool.eqb].
  assert (Hnone : forall rs, (forall r', In r' rs -> Send r' = false) ->
                             filter (fun r0 : row cell => Bool.eqb (Send r0) true) rs = []).
  { induction rs as [|r0 rs IH]; intros Hrs; simpl; auto.
    rewrite (Hrs r0) by (simpl; auto). simpl.
    apply IH. intros r' Hr'. apply Hrs. simpl. auto. }
  rewrite (Hnone before), (Hnone after); [reflexivity | |];
    intros r' Hr'; apply Hothers, in_or_app; auto.
Qed.

End PageMore.

(** ** The page as a whole *)




Section Script.

Variable net : network.
Variable cell : Type.
Variable py_str : cell -> string.
Variables api_token phone_number_id : string.

(** X21: as long as the session holds no template (none fetched yet, or the
    last fetch failed or found none), a press of the send button only warns
    that a template must be selected, and issues no request. *)
Theorem send_without_templates (s : session cell) (ui : widgets cell)
        (w : world) :
  templates s = [] ->
  send_button net py_str api_token phone_number_id (script_locals s ui) w
  = (Ok None, show (St_warning Msg_select_template) w).
Proof.
  intros Hnone. unfold send_button, script_locals.
  cbn [selected_template]. rewrite Hnone. reflexivity.
Qed.



End Script.

Lemma upload_selects_every_row_run :
  exists df,
    upload fetched contacts_file
    = ({| templates := templates fetched;
          df_for_editing := df;
          uploaded_filename := Some (file_name contacts_file) |}, None)
    /\ columns df = labels two_contacts
    /\ df_selected df = df
    /\ forall col, map (fun r => cell_at r col) (rows df)
                   = map (fun line => line col) (lines two_contacts).
Proof.
  apply (@upload_selects_every_row scalar fetched contacts_file two_contacts);
    reflexivity.
Defined.

Lemma upload_same_name_ignored_run :
  upload (fst (upload fetched contacts_file))
         {| file_name := "contacts.csv"; read_csv := inl "No columns to parse" |}
  = (fst (upload fetched contacts_file), None).
Proof.
  apply (@upload_same_name_ignored scalar fetched contacts_file
           {| file_name := "contacts.csv";
              read_csv := inl "No columns to parse" |}
           two_contacts);
    reflexivity.
Defined.

Lemma upload_send_column_refused_run :
  upload fetched
         {| file_name := "flags.csv";
            read_csv := inr {| labels := ["Send"; "phone"];
                               lines := [fun _ => Int 15550000001] |} |}
  = ({| templates := templates fetched;
        df_for_editing := empty_frame;
        uploaded_filename := Some "flags.csv" |},
     Some "Error reading CSV file: cannot insert Send, already exists"%string)
  /\ upload (fst (upload fetched
                    {| file_name := "flags.csv";
                       read_csv := inr {| labels := ["Send"; "phone"];
                                          lines := [fun _ => Int 15550000001] |} |}))
            {| file_name := "flags.csv"; read_csv := inr two_contacts |}
     = (fst (upload fetched
               {| file_name := "flags.csv";
                  read_csv := inr {| labels := ["Send"; "phone"];
                                     lines := [fun _ => Int 15550000001] |} |}),
        None)
  /\ df_empty
       (df_for_editing
          (fst (upload
                  (fst (upload fetched
                          {| file_name := "flags.csv";
                             read_csv :=
                               inr {| labels := ["Send"; "phone"];
                                      lines := [fun _ => Int 15550000001] |} |}))
                  {| file_name := "flags.csv"; read_csv := inr two_contacts |})))
     = true.
Proof.
  apply (@upload_send_column_refused scalar fetched
           {| file_name := "flags.csv";
              read_csv := inr {| labels := ["Send"; "phone"];
                                 lines := [fun _ => Int 15550000001] |} |}
           {| file_name := "flags.csv"; read_csv := inr two_contacts |}
           {| labels := ["Send"; "phone"];
              lines := [fun _ => Int 15550000001] |});
    reflexivity.
Defined.

Lemma upload_unreadable_retried_run :
  upload fetched
         {| file_name := "empty.csv"; read_csv := inl "No columns to parse from file" |}
  = ({| templates := templates fetched;
        df_for_editing := empty_frame;
        uploaded_filename := uploaded_filename fetched |},
     Some "Error reading CSV file: No columns to parse from file"%string)
  /\ is_new_file
       (fst (upload fetched
               {| file_name := "empty.csv";
                  read_csv := inl "No columns to parse from file" |}))
       {| file_name := "empty.csv";
          read_csv := inl "No columns to parse from file" |}
     = true.
Proof.
  apply (@upload_unreadable_retried scalar fetched
           {| file_name := "empty.csv";
              read_csv := inl "No columns to parse from file" |}
           "No columns to parse from file");
    reflexivity.
Defined.

Lemma offered_column_reads_run :
  "phone"%string <> "Send"%string
  /\ df_column "phone" (df_for_editing (fst (upload fetched contacts_file))) fresh
     = (Ok (map (fun r => cell_at r "phone")
                (rows (df_for_editing (fst (upload fetched contacts_file))))),
        fresh).
Proof.
  apply (@offered_column_reads scalar
           (df_for_editing (fst (upload fetched contacts_file))) "phone" fresh).
  vm_compute. right. left. reflexivity.
Defined.

Lemma single_flagged_row_run :
  df_column "phone"
    (df_selected
       {| columns := ["phone"];
          rows := [{| Send := false; cell_at := fun _ => Int 15550000001 |};
                   {| Send := true; cell_at := fun _ => Int 15550000002 |};
                   {| Send := false; cell_at := fun _ => Int 15550000003 |}] |})
    fresh
  = (Ok [Int 15550000002], fresh).
Proof.
  apply (@single_flagged_row scalar
           {| columns := ["phone"];
              rows := [{| Send := false; cell_at := fun _ => Int 15550000001 |};
                       {| Send := true; cell_at := fun _ => Int 15550000002 |};
                       {| Send := false; cell_at := fun _ => Int 15550000003 |}] |}
           "phone"
           [{| Send := false; cell_at := fun _ => Int 15550000001 |}]
           [{| Send := false; cell_at := fun _ => Int 15550000003 |}]
           {| Send := true; cell_at := fun _ => Int 15550000002 |} fresh).
  - reflexivity.
  - reflexivity.
  - reflexivity.
  - intros r' [<-|[<-|[]]]; reflexivity.
Defined.

Lemma send_without_templates_run :
  send_button net_ok str_scalar "EAAG" "1055"
              (script_locals (fst (upload initial_session contacts_file))
                             (untouched 1)) fresh
  = (Ok None, show (St_warning Msg_select_template) fresh).
Proof.
  apply (@send_without_templates net_ok scalar str_scalar "EAAG" "1055"
           (fst (upload initial_session contacts_file)) (untouched 1) fresh).
  reflexivity.
Defined.


